(** * Shallow embedding of the tinman-chat streaming artifact core

    Sources embedded here:
    - [src/eslint.config.ts]: [AISDKZodV4Adapter] (the Zod v4 to v3 adapter);
    - [src/artifacts/code/server.ts]: [codeDocumentHandler];
    - [src/unnamed/part_006]: [sheetDocumentHandler];
    - [src/lib/ai/tools/create-document.ts] and [src/unnamed/part_011]:
      the [createDocument] and [updateDocument] tools;
    - [src/app/(app)/api/chat/schema.ts]: [postRequestBodySchema].

    JavaScript values are a small inductive type; objects are association
    lists, kept in insertion order because [Object.entries] and the
    validator's output follow it. The validator library ("zod", imported
    under both aliases [zv4] and [zv3] by the adapter) is modelled by the
    acceptance function [parse] over an abstract syntax of schemas, and by
    the runtime layout of its schema objects ([layout_v3], [layout_v4]),
    which is what the adapter's converter inspects. *)

From Stdlib Require Import Ascii String List ZArith Bool Lia DecimalString.
Import ListNotations.
Open Scope string_scope.
Set Warnings "-register-all".

(** ** JavaScript values *)

Inductive jsval : Type :=
| JUndef
| JNull
| JBool (b : bool)
| JNum (n : Z)
| JStr (s : string)
| JArr (xs : list jsval)
| JObj (props : list (string * jsval))
(** A function value; [JFun r] is the thunk [() => r]. A function has no
    own enumerable properties. *)
| JFun (ret : jsval).

Fixpoint assoc (k : string) (ps : list (string * jsval)) : option jsval :=
  match ps with
  | [] => None
  | (k', v) :: rest => if String.eqb k k' then Some v else assoc k rest
  end.

(** Property read [v[k]]. [None] is the [TypeError] thrown when [v] is
    [null] or [undefined]; a missing property reads as [undefined]. Only
    own data properties of plain objects are modelled (the code reads no
    property of primitives, arrays or functions that these carry). *)
Definition get_prop (v : jsval) (k : string) : option jsval :=
  match v with
  | JUndef | JNull => None
  | JObj ps => Some (match assoc k ps with Some x => x | None => JUndef end)
  | _ => Some JUndef
  end.

(** [key in v] for a plain object. *)
Definition has_prop (v : jsval) (k : string) : bool :=
  match v with
  | JObj ps => match assoc k ps with Some _ => true | None => false end
  | _ => false
  end.

(** JavaScript truthiness ([if (x)]). *)
Definition truthy (v : jsval) : bool :=
  match v with
  | JUndef | JNull => false
  | JBool b => b
  | JNum n => negb (Z.eqb n 0)
  | JStr s => negb (String.eqb s EmptyString)
  | JArr _ | JObj _ | JFun _ => true
  end.

(** [typeof v === "object"] (true for [null], arrays and objects). *)
Definition typeof_object (v : jsval) : bool :=
  match v with
  | JNull | JArr _ | JObj _ => true
  | _ => false
  end.

(** Strict equality [===]; distinct composite values are never equal
    (reference identity), which is all the code needs. *)
Definition strict_eqb (a b : jsval) : bool :=
  match a, b with
  | JUndef, JUndef | JNull, JNull => true
  | JBool x, JBool y => Bool.eqb x y
  | JNum x, JNum y => Z.eqb x y
  | JStr x, JStr y => String.eqb x y
  | _, _ => false
  end.

(** [x ?? d]. *)
Definition nullish (x d : jsval) : jsval :=
  match x with JUndef | JNull => d | _ => x end.

(** [ToNumber] on the values used as length bounds; [None] is [NaN]
    (numeric strings are not modelled). *)
Definition to_number (v : jsval) : option Z :=
  match v with
  | JNum n => Some n
  | JBool b => Some (if b then 1 else 0)%Z
  | JNull => Some 0%Z
  | _ => None
  end.

(** [String(v)] for the values the code interpolates into messages. *)
Definition js_display (v : jsval) : string :=
  match v with
  | JStr s => s
  | JUndef => "undefined"
  | JNull => "null"
  | JBool true => "true"
  | JBool false => "false"
  | JNum n => NilZero.string_of_int (Z.to_int n)
  | JArr _ | JObj _ => "[object Object]"
  | JFun _ => "() => {}"
  end.

(** [Object.entries(v)]; [None] is the [TypeError] on [null]/[undefined].
    Arrays give their index keys; functions, numbers and booleans have no
    own enumerable properties. *)
Definition object_entries (v : jsval) : option (list (string * jsval)) :=
  match v with
  | JUndef | JNull => None
  | JObj ps => Some ps
  | JArr xs =>
      Some (combine (map (fun i => NilZero.string_of_uint (Nat.to_uint i))
                         (seq 0 (length xs))) xs)
  | _ => Some []
  end.

(** ** The validator's schemas and their acceptance *)

(** String refinements, with their bound as the code passes it. *)
Inductive check : Type :=
| CMin (bound : jsval)
| CMax (bound : jsval)
| CEmail
| CUuid
| CUrl.

Inductive zschema : Type :=
| ZObject (shape : list (string * zschema))
| ZString (checks : list check)
| ZEnum (values : list string)
| ZArray (element : zschema)
| ZUnion (options : list zschema)
| ZOptional (innerType : zschema)
| ZLiteral (value : jsval)
| ZAny.

(** The library's built-in string formats, left abstract. *)
Class Formats : Type := {
  is_email : string -> bool;
  is_uuid : string -> bool;
  is_url : string -> bool
}.

Section Parse.
Context {F : Formats}.

(** One refinement on a string; a [NaN] bound makes the comparison false,
    so the check passes. *)
Definition check_ok (s : string) (c : check) : bool :=
  let len := Z.of_nat (String.length s) in
  match c with
  | CMin b => match to_number b with Some n => (n <=? len)%Z | None => true end
  | CMax b => match to_number b with Some n => (len <=? n)%Z | None => true end
  | CEmail => is_email s
  | CUuid => is_uuid s
  | CUrl => is_url s
  end.

(** [schema.parse(v)]: [Some] the parsed value, [None] a thrown
    validation error. Objects keep the keys of their shape (in shape
    order) and strip the others; a key absent from the input is output
    only when its parsed value is not [undefined]. A union returns the
    first option that accepts. *)
Fixpoint parse (s : zschema) (v : jsval) {struct s} : option jsval :=
  match s with
  | ZObject shape =>
      match v with
      | JObj ps =>
          let fix go (sh : list (string * zschema))
              : option (list (string * jsval)) :=
            match sh with
            | [] => Some []
            | (k, sk) :: rest =>
                let x := match assoc k ps with Some x => x | None => JUndef end in
                match parse sk x, go rest with
                | Some y, Some ys =>
                    Some (if has_prop v k || negb (strict_eqb y JUndef)
                          then (k, y) :: ys else ys)
                | _, _ => None
                end
            end in
          match go shape with Some out => Some (JObj out) | None => None end
      | _ => None
      end
  | ZString cs =>
      match v with
      | JStr str => if forallb (check_ok str) cs then Some v else None
      | _ => None
      end
  | ZEnum vals =>
      match v with
      | JStr str => if existsb (String.eqb str) vals then Some v else None
      | _ => None
      end
  | ZArray e =>
      match v with
      | JArr xs =>
          let fix go (xs : list jsval) : option (list jsval) :=
            match xs with
            | [] => Some []
            | x :: rest =>
                match parse e x, go rest with
                | Some y, Some ys => Some (y :: ys)
                | _, _ => None
                end
            end in
          match go xs with Some ys => Some (JArr ys) | None => None end
      | _ => None
      end
  | ZUnion opts =>
      let fix first (os : list zschema) : option jsval :=
        match os with
        | [] => None
        | o :: rest => match parse o v with Some y => Some y | None => first rest end
        end in
      first opts
  | ZOptional i =>
      match v with JUndef => Some JUndef | _ => parse i v end
  | ZLiteral l => if strict_eqb l v then Some v else None
  | ZAny => Some v
  end.

Definition accepts (s : zschema) (v : jsval) : bool :=
  match parse s v with Some _ => true | None => false end.

End Parse.

(** ** Effects: the data stream and exceptions

    A handler or tool run threads the log of events written to the data
    stream ([dataStream.write]) and either returns or throws. *)

Record event : Type := mkEvent {
  ev_type : string;
  ev_data : jsval;
  ev_transient : bool
}.

Inductive outcome (A : Type) : Type :=
| Ok (a : A)
| Throw (err : string).
Arguments Ok {A} a.
Arguments Throw {A} err.

Definition M (A : Type) : Type := list event -> outcome A * list event.

Definition ret {A} (a : A) : M A := fun log => (Ok a, log).

Definition bind {A B} (m : M A) (k : A -> M B) : M B :=
  fun log =>
    match m log with
    | (Ok a, log') => k a log'
    | (Throw e, log') => (Throw e, log')
    end.

Definition throw {A} (err : string) : M A := fun log => (Throw err, log).

Notation "x <- m ;; k" := (bind m (fun x => k))
  (at level 61, m at next level, right associativity).
Notation "m ;;; k" := (bind m (fun _ : unit => k))
  (at level 61, right associativity).

(** [dataStream.write(e)]. *)
Definition write (e : event) : M unit := fun log => (Ok tt, app log [e]).

(** [v[k]] inside a run: reading from [null]/[undefined] throws. *)
Definition read (v : jsval) (k : string) : M jsval :=
  match get_prop v k with
  | Some x => ret x
  | None => throw ("TypeError: Cannot read properties of " ++ js_display v)
  end.

(** A validation call: [Some] returns the parsed value, [None] throws. *)
Definition validate_m (validate : jsval -> option jsval) (v : jsval) : M jsval :=
  match validate v with
  | Some x => ret x
  | None => throw "ZodError"
  end.

(** ** The adapter's converter ([createEquivalentV3Schema])

    The converter inspects a schema object at run time. Its result is the
    list of [console.warn] diagnostics it emitted and the old-library
    schema it built, or the exception it threw. *)

Definition obind {A B} (o : outcome A) (k : A -> outcome B) : outcome B :=
  match o with Ok a => k a | Throw e => Throw e end.

Notation "x <-? o ;; k" := (obind o (fun x => k))
  (at level 61, o at next level, right associativity).

Definition oread (v : jsval) (k : string) : outcome jsval :=
  match get_prop v k with
  | Some x => Ok x
  | None => Throw ("TypeError: Cannot read properties of " ++ js_display v)
  end.

(** The cases of [switch (typeName)]. *)
Inductive v3kind : Type :=
| KObject | KString | KEnum | KArray | KUnion | KOptional | KLiteral | KUnknown.

Definition kind_of_typeName (t : jsval) : v3kind :=
  if strict_eqb t (JStr "ZodObject") then KObject
  else if strict_eqb t (JStr "ZodString") then KString
  else if strict_eqb t (JStr "ZodEnum") then KEnum
  else if strict_eqb t (JStr "ZodArray") then KArray
  else if strict_eqb t (JStr "ZodUnion") then KUnion
  else if strict_eqb t (JStr "ZodOptional") then KOptional
  else if strict_eqb t (JStr "ZodLiteral") then KLiteral
  else KUnknown.

(** One iteration of [for (const check of schema._def.checks)]: the
    refinement it adds, if any. *)
Definition convert_check (c : jsval) : outcome (option check) :=
  kind <-? oread c "kind" ;;
  if strict_eqb kind (JStr "email") then Ok (Some CEmail)
  else if strict_eqb kind (JStr "uuid") then Ok (Some CUuid)
  else if strict_eqb kind (JStr "url") then Ok (Some CUrl)
  else if strict_eqb kind (JStr "min") then
    (value <-? oread c "value" ;; Ok (Some (CMin value)))
  else if strict_eqb kind (JStr "max") then
    (value <-? oread c "value" ;; Ok (Some (CMax value)))
  else Ok None.

Fixpoint convert_checks (cs : list jsval) : outcome (list check) :=
  match cs with
  | [] => Ok []
  | c :: rest =>
      oc <-? convert_check c ;;
      more <-? convert_checks rest ;;
      Ok (match oc with Some k => k :: more | None => more end)
  end.

(** [for ... of] over the checks: an array is iterated, a string is
    iterated by characters (whose [kind] is [undefined], so nothing is
    added), any other value is not iterable. *)
Definition iterate_checks (checks : jsval) : outcome (list check) :=
  match checks with
  | JArr cs => convert_checks cs
  | JStr _ => Ok []
  | _ => Throw "TypeError: checks is not iterable"
  end.

(** [schema._def.values] as the library stores an enum's values: the
    string entries of an array. *)
Definition enum_values (v : jsval) : list string :=
  match v with
  | JArr xs => flat_map (fun x => match x with JStr s => [s] | _ => [] end) xs
  | _ => []
  end.

Fixpoint jsize (v : jsval) : nat :=
  match v with
  | JArr xs =>
      S ((fix go (xs : list jsval) : nat :=
            match xs with [] => 0 | x :: r => jsize x + go r end) xs)
  | JObj ps =>
      S ((fix go (ps : list (string * jsval)) : nat :=
            match ps with [] => 0 | (_, x) :: r => jsize x + go r end) ps)
  | JFun r => S (jsize r)
  | _ => 1
  end.

(** [createEquivalentV3Schema], with a call-depth budget: every recursive
    call is on a value nested strictly inside its argument, so the budget
    [jsize schema] given below is never exhausted. *)
Fixpoint convert_fuel (fuel : nat) (schema : jsval) {struct fuel}
    : outcome (list string * zschema) :=
  match fuel with
  | O => Throw "RangeError: Maximum call stack size exceeded"
  | S fuel' =>
      let conv := convert_fuel fuel' in
      let fix conv_list (xs : list jsval) : outcome (list string * list zschema) :=
        match xs with
        | [] => Ok ([], [])
        | x :: rest =>
            r <-? conv x ;; rs <-? conv_list rest ;;
            Ok (fst r ++ fst rs, snd r :: snd rs)%list
        end in
      let fix conv_entries (es : list (string * jsval))
          : outcome (list string * list (string * zschema)) :=
        match es with
        | [] => Ok ([], [])
        | (k, x) :: rest =>
            r <-? conv x ;; rs <-? conv_entries rest ;;
            Ok (fst r ++ fst rs, (k, snd r) :: snd rs)%list
        end in
      def <-? oread schema "_def" ;;
      if typeof_object def then
        typeName <-? oread def "typeName" ;;
        if truthy typeName then
          match kind_of_typeName typeName with
          | KObject =>
              shape <-? oread def "shape" ;;
              match object_entries shape with
              | None => Throw "TypeError: Cannot convert undefined or null to object"
              | Some es => rs <-? conv_entries es ;; Ok (fst rs, ZObject (snd rs))
              end
          | KString =>
              checks <-? oread def "checks" ;;
              if truthy checks then
                cs <-? iterate_checks checks ;; Ok ([], ZString cs)
              else Ok ([], ZString [])
          | KEnum =>
              values <-? oread def "values" ;; Ok ([], ZEnum (enum_values values))
          | KArray =>
              t <-? oread def "type" ;; r <-? conv t ;; Ok (fst r, ZArray (snd r))
          | KUnion =>
              options <-? oread def "options" ;;
              match options with
              | JArr xs => rs <-? conv_list xs ;; Ok (fst rs, ZUnion (snd rs))
              | _ => Throw "TypeError: options.map is not a function"
              end
          | KOptional =>
              inner <-? oread def "innerType" ;; r <-? conv inner ;;
              Ok (fst r, ZOptional (snd r))
          | KLiteral =>
              value <-? oread def "value" ;; Ok ([], ZLiteral value)
          | KUnknown =>
              Ok (["Unknown Zod v4 schema type: " ++ js_display typeName
                   ++ ". Using generic schema."], ZAny)
          end
        else Ok ([], ZAny)
      else Ok ([], ZAny)
  end.

Definition createEquivalentV3Schema (schema : jsval) : outcome (list string * zschema) :=
  convert_fuel (jsize schema) schema.

Definition convertToV3Schema (v4Schema : jsval) : outcome (list string * zschema) :=
  createEquivalentV3Schema v4Schema.

(** ** Runtime layout of the library's schema objects

    [layout_v3]: the classic layout ([zod] 3.x, the version the project
    pins): [_def.typeName] names the kind and an object's [_def.shape] is
    the thunk [() => shape]. [layout_v4]: the [zod] 4 layout, where [_def]
    carries a [type] tag and no [typeName]. *)

Definition def_obj (ps : list (string * jsval)) : jsval := JObj [("_def", JObj ps)].

Definition check_layout_v3 (c : check) : jsval :=
  match c with
  | CMin b => JObj [("kind", JStr "min"); ("value", b); ("inclusive", JBool true)]
  | CMax b => JObj [("kind", JStr "max"); ("value", b); ("inclusive", JBool true)]
  | CEmail => JObj [("kind", JStr "email")]
  | CUuid => JObj [("kind", JStr "uuid")]
  | CUrl => JObj [("kind", JStr "url")]
  end.

Fixpoint layout_v3 (s : zschema) : jsval :=
  match s with
  | ZObject sh =>
      let fix go (sh : list (string * zschema)) : list (string * jsval) :=
        match sh with [] => [] | (k, x) :: r => (k, layout_v3 x) :: go r end in
      def_obj [("shape", JFun (JObj (go sh))); ("unknownKeys", JStr "strip");
               ("typeName", JStr "ZodObject")]
  | ZString cs =>
      def_obj [("checks", JArr (map check_layout_v3 cs)); ("typeName", JStr "ZodString");
               ("coerce", JBool false)]
  | ZEnum vs => def_obj [("values", JArr (map JStr vs)); ("typeName", JStr "ZodEnum")]
  | ZArray e =>
      def_obj [("type", layout_v3 e); ("minLength", JNull); ("maxLength", JNull);
               ("typeName", JStr "ZodArray")]
  | ZUnion os =>
      let fix go (os : list zschema) : list jsval :=
        match os with [] => [] | x :: r => layout_v3 x :: go r end in
      def_obj [("options", JArr (go os)); ("typeName", JStr "ZodUnion")]
  | ZOptional i => def_obj [("innerType", layout_v3 i); ("typeName", JStr "ZodOptional")]
  | ZLiteral v => def_obj [("value", v); ("typeName", JStr "ZodLiteral")]
  | ZAny => def_obj [("typeName", JStr "ZodAny")]
  end.

Definition check_layout_v4 (c : check) : jsval :=
  let chk ps := JObj [("_zod", JObj [("def", JObj ps)])] in
  match c with
  | CMin b => chk [("check", JStr "min_length"); ("minimum", b)]
  | CMax b => chk [("check", JStr "max_length"); ("maximum", b)]
  | CEmail => chk [("check", JStr "string_format"); ("format", JStr "email")]
  | CUuid => chk [("check", JStr "string_format"); ("format", JStr "uuid")]
  | CUrl => chk [("check", JStr "string_format"); ("format", JStr "url")]
  end.

Fixpoint layout_v4 (s : zschema) : jsval :=
  match s with
  | ZObject sh =>
      let fix go (sh : list (string * zschema)) : list (string * jsval) :=
        match sh with [] => [] | (k, x) :: r => (k, layout_v4 x) :: go r end in
      def_obj [("type", JStr "object"); ("shape", JObj (go sh))]
  | ZString cs =>
      def_obj [("type", JStr "string"); ("checks", JArr (map check_layout_v4 cs))]
  | ZEnum vs =>
      def_obj [("type", JStr "enum");
               ("entries", JObj (map (fun v => (v, JStr v)) vs))]
  | ZArray e => def_obj [("type", JStr "array"); ("element", layout_v4 e)]
  | ZUnion os =>
      let fix go (os : list zschema) : list jsval :=
        match os with [] => [] | x :: r => layout_v4 x :: go r end in
      def_obj [("type", JStr "union"); ("options", JArr (go os))]
  | ZOptional i => def_obj [("type", JStr "optional"); ("innerType", layout_v4 i)]
  | ZLiteral v => def_obj [("type", JStr "literal"); ("values", JArr [v])]
  | ZAny => def_obj [("type", JStr "any")]
  end.

(** What the converter builds from a classic-layout schema: the same
    schema, except that every object loses its whole shape (the entries
    of the thunk [_def.shape] are those of a function: none). *)
Fixpoint v3_image (s : zschema) : zschema :=
  match s with
  | ZObject _ => ZObject []
  | ZArray e => ZArray (v3_image e)
  | ZUnion os =>
      ZUnion ((fix go (os : list zschema) : list zschema :=
                 match os with [] => [] | o :: r => v3_image o :: go r end) os)
  | ZOptional i => ZOptional (v3_image i)
  | other => other
  end.

(** The nesting the converter walks on a classic-layout schema. *)
Fixpoint convert_depth (s : zschema) : nat :=
  match s with
  | ZArray e => S (convert_depth e)
  | ZUnion os =>
      S ((fix go (os : list zschema) : nat :=
            match os with [] => 0 | o :: r => Nat.max (convert_depth o) (go r) end) os)
  | ZOptional i => S (convert_depth i)
  | _ => 0
  end.

(** The [console.warn] diagnostics the converter emits on a
    classic-layout schema, in order: one for each [z.any()] node it
    reaches ([ZodAny] is not among the names it recognizes); object
    fields are not reached. *)
Fixpoint v3_warnings (s : zschema) : list string :=
  match s with
  | ZArray e => v3_warnings e
  | ZUnion os =>
      (fix go (os : list zschema) : list string :=
         match os with [] => [] | o :: r => (v3_warnings o ++ go r)%list end) os
  | ZOptional i => v3_warnings i
  | ZAny => ["Unknown Zod v4 schema type: ZodAny. Using generic schema."]
  | _ => []
  end.

(** A schema with no [z.object] node. *)
Fixpoint object_free (s : zschema) : bool :=
  match s with
  | ZObject _ => false
  | ZArray e => object_free e
  | ZUnion os =>
      (fix go (os : list zschema) : bool :=
         match os with [] => true | o :: r => object_free o && go r end) os
  | ZOptional i => object_free i
  | _ => true
  end.

(** The schema objects the library builds, as the converter sees them.
    Classic layout ([zod] 3.x): the node's own [_def] is an object whose
    [typeName] names the kind; an object node's [shape] is a thunk, a
    string node's [checks] is an array of check records ([{kind: "min",
    value}], [{kind: "regex", regex}], ...), an array node's [type], a
    union's [options] and an optional's [innerType] are nodes again, and
    every other kind ([ZodNumber], [ZodBoolean], [ZodNullable], [ZodAny],
    ...) carries a [typeName] the converter does not recognize.
    [zod] 4 layout: [_def] is an object tagged by [type], with no
    [typeName]. *)
Inductive library_node : jsval -> Prop :=
| LNObject (ns ps : list (string * jsval)) (r : jsval) :
    assoc "_def" ns = Some (JObj ps) -> assoc "typeName" ps = Some (JStr "ZodObject") ->
    assoc "shape" ps = Some (JFun r) -> library_node (JObj ns)
| LNString (ns ps : list (string * jsval)) (cs : list jsval) :
    assoc "_def" ns = Some (JObj ps) -> assoc "typeName" ps = Some (JStr "ZodString") ->
    assoc "checks" ps = Some (JArr cs) -> Forall (fun c => exists cps, c = JObj cps) cs ->
    library_node (JObj ns)
| LNEnum (ns ps : list (string * jsval)) :
    assoc "_def" ns = Some (JObj ps) -> assoc "typeName" ps = Some (JStr "ZodEnum") ->
    library_node (JObj ns)
| LNArray (ns ps : list (string * jsval)) (t : jsval) :
    assoc "_def" ns = Some (JObj ps) -> assoc "typeName" ps = Some (JStr "ZodArray") ->
    assoc "type" ps = Some t -> library_node t -> library_node (JObj ns)
| LNUnion (ns ps : list (string * jsval)) (os : list jsval) :
    assoc "_def" ns = Some (JObj ps) -> assoc "typeName" ps = Some (JStr "ZodUnion") ->
    assoc "options" ps = Some (JArr os) -> (forall o, In o os -> library_node o) ->
    library_node (JObj ns)
| LNOptional (ns ps : list (string * jsval)) (i : jsval) :
    assoc "_def" ns = Some (JObj ps) -> assoc "typeName" ps = Some (JStr "ZodOptional") ->
    assoc "innerType" ps = Some i -> library_node i -> library_node (JObj ns)
| LNLiteral (ns ps : list (string * jsval)) :
    assoc "_def" ns = Some (JObj ps) -> assoc "typeName" ps = Some (JStr "ZodLiteral") ->
    library_node (JObj ns)
| LNOther (ns ps : list (string * jsval)) (t : jsval) :
    assoc "_def" ns = Some (JObj ps) -> assoc "typeName" ps = Some t ->
    kind_of_typeName t = KUnknown -> library_node (JObj ns)
| LNV4 (ns ps : list (string * jsval)) :
    assoc "_def" ns = Some (JObj ps) -> assoc "typeName" ps = None ->
    library_node (JObj ns).

(** ** The adapter's wrapper ([createStreamingToolSchema]) *)

Section Adapter.
Context {F : Formats}.

Record AISDKCompatibleSchema : Type := {
  aiSdkSchema : zschema;
  v4Schema : zschema;
  validate : jsval -> option jsval
}.

(** [createStreamingToolSchema(v4Schema)], for a schema laid out by
    [layout]: converting may throw, and then so does the call. *)
Definition createStreamingToolSchema (layout : zschema -> jsval) (S : zschema)
    : outcome AISDKCompatibleSchema :=
  r <-? convertToV3Schema (layout S) ;;
  Ok {| aiSdkSchema := snd r; v4Schema := S; validate := fun data => parse S data |}.

End Adapter.

(** ** [JSON.stringify] and [testStreamingCompatibility] *)

(** A lowercase hexadecimal digit. *)
Definition hex_digit (n : nat) : ascii :=
  ascii_of_nat (if Nat.ltb n 10 then (48 + n)%nat else (87 + n)%nat).

(** How [JSON.stringify] writes one character inside a string literal. *)
Definition json_escape_char (a : ascii) : string :=
  let n := nat_of_ascii a in
  if Nat.eqb n 34 then String "\"%char (String a EmptyString)
  else if Nat.eqb n 92 then String "\"%char (String a EmptyString)
  else if Nat.eqb n 8 then "\b"
  else if Nat.eqb n 12 then "\f"
  else if Nat.eqb n 10 then "\n"
  else if Nat.eqb n 13 then "\r"
  else if Nat.eqb n 9 then "\t"
  else if Nat.ltb n 32 then "\u00" ++ String (hex_digit (Nat.div n 16)) (String (hex_digit (Nat.modulo n 16)) EmptyString)
  else String a EmptyString.

Fixpoint json_quote_body (s : string) : string :=
  match s with
  | EmptyString => EmptyString
  | String a r => json_escape_char a ++ json_quote_body r
  end.

(** A JSON string literal. *)
Definition json_quote (s : string) : string :=
  String (ascii_of_nat 34) (json_quote_body s ++ String (ascii_of_nat 34) EmptyString).

(** [JSON.stringify(v)]; [None] is its result [undefined] (for
    [undefined] and functions). Inside an array such a value is written
    [null]; inside an object its key is left out. Keys are written in
    the object's order. *)
Fixpoint json_stringify (v : jsval) : option string :=
  match v with
  | JUndef | JFun _ => None
  | JNull => Some "null"
  | JBool b => Some (if b then "true" else "false")
  | JNum n => Some (js_display (JNum n))
  | JStr s => Some (json_quote s)
  | JArr xs =>
      Some ("[" ++ String.concat ","
              ((fix go (xs : list jsval) : list string :=
                  match xs with
                  | [] => []
                  | x :: r =>
                      match json_stringify x with Some t => t | None => "null" end :: go r
                  end) xs) ++ "]")
  | JObj ps =>
      Some ("{" ++ String.concat ","
              ((fix go (ps : list (string * jsval)) : list string :=
                  match ps with
                  | [] => []
                  | (k, x) :: r =>
                      match json_stringify x with
                      | Some t => (json_quote k ++ ":" ++ t) :: go r
                      | None => go r
                      end
                  end) ps) ++ "}")
  end.

(** [===] on two results of [JSON.stringify]. *)
Definition json_result_eqb (a b : option string) : bool :=
  match a, b with
  | Some x, Some y => String.eqb x y
  | None, None => true
  | _, _ => false
  end.

Section Compat.
Context {F : Formats}.

(** [AISDKZodV4Adapter.testStreamingCompatibility(v4Schema, testData)]:
    the [console.error] messages it logs and the boolean it resolves to.
    Every exception of the [try] block is caught. *)
Definition testStreamingCompatibility (layout : zschema -> jsval) (v4Schema : zschema)
    (testData : jsval) : list string * bool :=
  match createStreamingToolSchema layout v4Schema with
  | Throw e => (["Schema compatibility test failed: " ++ e], false)
  | Ok compatSchema =>
      match validate compatSchema testData with
      | None => (["Schema compatibility test failed: ZodError"], false)
      | Some v4Result =>
          match parse (aiSdkSchema compatSchema) testData with
          | None => (["Schema compatibility test failed: ZodError"], false)
          | Some v3Result =>
              ([], json_result_eqb (json_stringify v4Result) (json_stringify v3Result))
          end
      end
  end.

End Compat.

(** ** The [requestSuggestions] tool ([src/lib/ai/tools/request-suggestions.ts]) *)

(** What the tool's run can change: the data stream, the stored
    suggestion batches ([saveSuggestions]), and the number of
    [generateUUID()] and [new Date()] calls so far. *)
Record world : Type := mkWorld {
  w_log : list event;
  w_saved : list (list jsval);
  w_uuids : nat;
  w_clock : nat
}.

Definition W (A : Type) : Type := world -> outcome A * world.

Definition wret {A} (a : A) : W A := fun w => (Ok a, w).

Definition wbind {A B} (m : W A) (k : A -> W B) : W B :=
  fun w => match m w with (Ok a, w') => k a w' | (Throw e, w') => (Throw e, w') end.

(** A run on the data stream alone. *)
Definition lift {A} (m : M A) : W A :=
  fun w => let (o, log') := m (w_log w) in
           (o, mkWorld log' (w_saved w) (w_uuids w) (w_clock w)).

(** [v?.k]. *)
Definition optional_get (v : jsval) (k : string) : jsval :=
  match v with
  | JUndef | JNull => JUndef
  | _ => match get_prop v k with Some x => x | None => JUndef end
  end.

(** The own properties copied by [{...v}] (the suggestions spread are
    objects). *)
Definition spread_props (v : jsval) : list (string * jsval) :=
  match v with JObj ps => ps | _ => [] end.

Section RequestSuggestions.
Context {F : Formats}.
(** The values of the [n]-th [generateUUID()] and [new Date()] calls. *)
Variable generateUUID : nat -> string.
Variable newDate : nat -> jsval.

Definition fresh_uuid : W string :=
  fun w => (Ok (generateUUID (w_uuids w)),
            mkWorld (w_log w) (w_saved w) (S (w_uuids w)) (w_clock w)).

Definition new_Date : W jsval :=
  fun w => (Ok (newDate (w_clock w)),
            mkWorld (w_log w) (w_saved w) (w_uuids w) (S (w_clock w))).

Definition saveSuggestions (suggestions : list jsval) : W unit :=
  fun w => (Ok tt, mkWorld (w_log w) (app (w_saved w) [suggestions]) (w_uuids w) (w_clock w)).

(** [z.object({ documentId: z.string().min(1, ...) })]. *)
Definition requestSuggestionsSchemaV4 : zschema :=
  ZObject [("documentId", ZString [CMin (JNum 1)])].

(** [for await (const element of elementStream) { ... }]: builds each
    suggestion, writes it as a [data-suggestion] event and pushes it. *)
Fixpoint suggestions_loop (documentId : jsval) (elements : list jsval)
    (suggestions : list jsval) : W (list jsval) :=
  match elements with
  | [] => wret suggestions
  | element :: rest =>
      wbind (lift (read element "originalSentence")) (fun originalText =>
      wbind (lift (read element "suggestedSentence")) (fun suggestedText =>
      wbind (lift (read element "description")) (fun description =>
      wbind fresh_uuid (fun id =>
      let suggestion :=
        JObj [("originalText", originalText); ("suggestedText", suggestedText);
              ("description", description); ("id", JStr id);
              ("documentId", documentId); ("isResolved", JBool false)] in
      wbind (lift (write (mkEvent "data-suggestion" suggestion true))) (fun _ =>
      suggestions_loop documentId rest (app suggestions [suggestion]))))))
  end.

(** [suggestions.map((suggestion) => ({...suggestion, userId,
    createdAt: new Date(), documentCreatedAt: document.createdAt}))]. *)
Fixpoint with_user_rows (userId document : jsval) (suggestions : list jsval) : W (list jsval) :=
  match suggestions with
  | [] => wret []
  | suggestion :: rest =>
      wbind new_Date (fun createdAt =>
      wbind (lift (read document "createdAt")) (fun documentCreatedAt =>
      wbind (with_user_rows userId document rest) (fun rows =>
      wret (JObj (app (spread_props suggestion)
                    [("userId", userId); ("createdAt", createdAt);
                     ("documentCreatedAt", documentCreatedAt)]) :: rows))))
  end.

Definition notFound : jsval := JObj [("error", JStr "Document not found")].

(** [requestSuggestions(...).execute(params)]; [getDocumentById] is the
    store lookup and [elementsFor content] the elements the provider
    streams for the prompt [content]. *)
Definition requestSuggestions_execute (getDocumentById : jsval -> option jsval)
    (elementsFor : jsval -> list jsval) (session params : jsval) : W jsval :=
  wbind (lift (validate_m (fun data => parse requestSuggestionsSchemaV4 data) params)) (fun p =>
  wbind (lift (read p "documentId")) (fun documentId =>
  match getDocumentById documentId with
  | None => wret notFound
  | Some document =>
      wbind (lift (read document "content")) (fun content =>
      if negb (truthy content) then wret notFound else
      wbind (suggestions_loop documentId (elementsFor content) []) (fun suggestions =>
      wbind (lift (read session "user")) (fun user =>
      wbind (if truthy (optional_get user "id") then
               wbind (lift (read user "id")) (fun userId =>
               wbind (with_user_rows userId document suggestions) (fun rows =>
               saveSuggestions rows))
             else wret tt) (fun _ =>
      wbind (lift (read document "title")) (fun title =>
      wbind (lift (read document "kind")) (fun kind =>
      wret (JObj [("id", documentId); ("title", title); ("kind", kind);
                  ("message", JStr "Suggestions have been added to the document")])))))))
  end)).

(** [v[k]] on an object (absent keys read [undefined]). *)
Definition prop (v : jsval) (k : string) : jsval :=
  match get_prop v k with Some x => x | None => JUndef end.

(** The suggestions the loop builds from [elements], the first one
    taking the [n]-th UUID. *)
Fixpoint suggestions_for (n : nat) (documentId : jsval) (elements : list jsval) : list jsval :=
  match elements with
  | [] => []
  | e :: r =>
      JObj [("originalText", prop e "originalSentence");
            ("suggestedText", prop e "suggestedSentence");
            ("description", prop e "description"); ("id", JStr (generateUUID n));
            ("documentId", documentId); ("isResolved", JBool false)]
      :: suggestions_for (S n) documentId r
  end.

(** The rows [saveSuggestions] receives, the first one stamped with the
    [t]-th [new Date()]. *)
Fixpoint rows_for (t : nat) (userId documentCreatedAt : jsval) (ss : list jsval) : list jsval :=
  match ss with
  | [] => []
  | s :: r =>
      JObj (app (spread_props s) [("userId", userId); ("createdAt", newDate t);
                                  ("documentCreatedAt", documentCreatedAt)])
      :: rows_for (S t) userId documentCreatedAt r
  end.

Definition suggestionEvent (s : jsval) : event := mkEvent "data-suggestion" s true.

End RequestSuggestions.

(** ** The document handlers

    One increment of [streamObject(...).fullStream]: an ["object"] part
    carries the current partial object; other parts ([text-delta],
    [error], [finish], ...) are ignored by the handlers. *)

Inductive delta : Type :=
| DObject (object : jsval)
| DOther (type_ : string).

(** [z.object({ code: z.string().min(1, "Code content is required") })]
    in [src/artifacts/code/server.ts]. *)
Definition codeStreamingSchemaV4 : zschema :=
  ZObject [("code", ZString [CMin (JNum 1)])].

(** [z.object({ csv: z.string().min(1, "CSV data is required").describe(...) })]
    in [src/unnamed/part_006]. *)
Definition sheetStreamingSchema : zschema :=
  ZObject [("csv", ZString [CMin (JNum 1)])].

Section Handlers.
Context {F : Formats}.

(** The loop shared by the four handler bodies:
<<
    for await (const delta of fullStream) {
      if (type === "object") {
        const { field } = object;
        if (field) {
          const validatedObject = validate({ field });
          dataStream.write({ type: evType, data: shown(validatedObject.field), transient: true });
          draftContent = validatedObject.field;
        }
      }
    }
>>
    [shown] is [x => x ?? ""] in the code handler and the identity in the
    sheet handler. *)
Fixpoint stream_loop (field evType : string) (shown : jsval -> jsval)
    (validate : jsval -> option jsval) (deltas : list delta)
    (draftContent : jsval) : M jsval :=
  match deltas with
  | [] => ret draftContent
  | DObject object :: rest =>
      x <- read object field ;;
      if truthy x then
        validatedObject <- validate_m validate (JObj [(field, x)]) ;;
        y <- read validatedObject field ;;
        write (mkEvent evType (shown y) true) ;;;
        stream_loop field evType shown validate rest y
      else stream_loop field evType shown validate rest draftContent
  | DOther _ :: rest => stream_loop field evType shown validate rest draftContent
  end.

End Handlers.

Section Artifacts.
Context {F : Formats}.

(** [codeAdapterSchema.validate]: the wrapper's [validate] is the v4
    schema's [parse] (see [createStreamingToolSchema]). *)
Definition codeAdapterSchema_validate : jsval -> option jsval :=
  fun data => parse codeStreamingSchemaV4 data.

(** [codeDocumentHandler.onCreateDocument], run on the increments of the
    provider stream [fullStream]; it returns [draftContent]. *)
Definition code_onCreateDocument (fullStream : list delta) : M jsval :=
  stream_loop "code" "data-codeDelta" (fun c => nullish c (JStr EmptyString))
    codeAdapterSchema_validate fullStream (JStr EmptyString).

(** [codeDocumentHandler.onUpdateDocument]: the same loop. *)
Definition code_onUpdateDocument (fullStream : list delta) : M jsval :=
  stream_loop "code" "data-codeDelta" (fun c => nullish c (JStr EmptyString))
    codeAdapterSchema_validate fullStream (JStr EmptyString).

(** [sheetDocumentHandler.onCreateDocument]: the loop, then one more
    [data-sheetDelta] carrying [draftContent]. *)
Definition sheet_onCreateDocument (fullStream : list delta) : M jsval :=
  draftContent <- stream_loop "csv" "data-sheetDelta" (fun c => c)
                    (fun data => parse sheetStreamingSchema data)
                    fullStream (JStr EmptyString) ;;
  write (mkEvent "data-sheetDelta" draftContent true) ;;;
  ret draftContent.

(** [sheetDocumentHandler.onUpdateDocument]: the loop only. *)
Definition sheet_onUpdateDocument (fullStream : list delta) : M jsval :=
  stream_loop "csv" "data-sheetDelta" (fun c => c)
    (fun data => parse sheetStreamingSchema data) fullStream (JStr EmptyString).

(** A stored document row, as [getDocumentById] returns it. *)
Record docrow : Type := {
  doc_title : jsval;
  doc_kind : string;
  doc_content : jsval
}.

(** An entry of [documentHandlersByArtifactKind]. The handler's own
    arguments that the runs below do not depend on ([id], [session],
    [dataStream], which is the threaded log) are left out. *)
Record documentHandler : Type := {
  dh_kind : string;
  onCreateDocument : jsval -> M jsval;
  onUpdateDocument : docrow -> jsval -> M jsval
}.

(** The registry entries of [src/]; [streamFor p] is the increment
    sequence the provider yields for the prompt [p] (the title on create,
    the description on update). *)
Definition codeDocumentHandler (streamFor : jsval -> list delta) : documentHandler := {|
  dh_kind := "code";
  onCreateDocument := fun title => code_onCreateDocument (streamFor title);
  onUpdateDocument := fun _ description => code_onUpdateDocument (streamFor description)
|}.

Definition sheetDocumentHandler (streamFor : jsval -> list delta) : documentHandler := {|
  dh_kind := "sheet";
  onCreateDocument := fun title => sheet_onCreateDocument (streamFor title);
  onUpdateDocument := fun _ description => sheet_onUpdateDocument (streamFor description)
|}.

(** ** The tools *)

(** [z.object({ title: z.string().min(1, ...), kind: z.enum(artifactKinds) })]. *)
Definition createDocumentSchemaV4 (artifactKinds : list string) : zschema :=
  ZObject [("title", ZString [CMin (JNum 1)]); ("kind", ZEnum artifactKinds)].

(** [z.object({ id: z.string().min(1, ...), description: z.string().min(1, ...) })]. *)
Definition updateDocumentSchemaV4 : zschema :=
  ZObject [("id", ZString [CMin (JNum 1)]); ("description", ZString [CMin (JNum 1)])].

(** [documentHandlersByArtifactKind.find(h => h.kind === kind)]. *)
Definition find_handler (documentHandlersByArtifactKind : list documentHandler)
    (kind : jsval) : option documentHandler :=
  find (fun h => strict_eqb (JStr (dh_kind h)) kind) documentHandlersByArtifactKind.

(** [createDocument(...).execute(params)]; [id] is the value of
    [generateUUID()]. *)
Definition createDocument_execute (artifactKinds : list string)
    (documentHandlersByArtifactKind : list documentHandler)
    (id : string) (params : jsval) : M jsval :=
  p <- validate_m (fun data => parse (createDocumentSchemaV4 artifactKinds) data) params ;;
  title <- read p "title" ;;
  kind <- read p "kind" ;;
  write (mkEvent "data-kind" kind true) ;;;
  write (mkEvent "data-id" (JStr id) true) ;;;
  write (mkEvent "data-title" title true) ;;;
  write (mkEvent "data-clear" JNull true) ;;;
  match find_handler documentHandlersByArtifactKind kind with
  | None => throw ("No document handler found for kind: " ++ js_display kind)
  | Some documentHandler =>
      _ <- onCreateDocument documentHandler title ;;
      write (mkEvent "data-finish" JNull true) ;;;
      ret (JObj [("id", JStr id); ("title", title); ("kind", kind);
                 ("content", JStr "A document was created and is now visible to the user.")])
  end.

(** [updateDocument(...).execute(params)]; [getDocumentById] is the
    store lookup. *)
Definition updateDocument_execute (getDocumentById : jsval -> option docrow)
    (documentHandlersByArtifactKind : list documentHandler)
    (params : jsval) : M jsval :=
  p <- validate_m (fun data => parse updateDocumentSchemaV4 data) params ;;
  id <- read p "id" ;;
  description <- read p "description" ;;
  match getDocumentById id with
  | None => ret (JObj [("error", JStr "Document not found")])
  | Some document =>
      write (mkEvent "data-clear" JNull true) ;;;
      match find_handler documentHandlersByArtifactKind (JStr (doc_kind document)) with
      | None => throw ("No document handler found for kind: " ++ doc_kind document)
      | Some documentHandler =>
          _ <- onUpdateDocument documentHandler document description ;;
          write (mkEvent "data-finish" JNull true) ;;;
          ret (JObj [("id", id); ("title", doc_title document);
                     ("kind", JStr (doc_kind document));
                     ("content", JStr "The document has been updated successfully.")])
      end
  end.

End Artifacts.

(** ** The chat request body schema ([src/app/(app)/api/chat/schema.ts]) *)

Definition textPartSchema : zschema :=
  ZObject [("type", ZEnum ["text"]); ("text", ZString [CMin (JNum 1); CMax (JNum 2000)])].

Definition filePartSchema : zschema :=
  ZObject [("type", ZEnum ["file"]);
           ("mediaType", ZEnum ["image/jpeg"; "image/png"]);
           ("name", ZString [CMin (JNum 1); CMax (JNum 100)]);
           ("url", ZString [CUrl])].

Definition partSchema : zschema := ZUnion [textPartSchema; filePartSchema].

Definition postRequestBodySchema : zschema :=
  ZObject [("id", ZString [CUuid]);
           ("message", ZObject [("id", ZString [CUuid]);
                                ("role", ZEnum ["user"]);
                                ("parts", ZArray partSchema)]);
           ("selectedChatModel", ZEnum ["chat-model"; "chat-model-reasoning"]);
           ("selectedVisibilityType", ZEnum ["public"; "private"])].

(** ** Notations for the statements below *)

(** An ["object"] increment whose [code] (resp. [csv]) field is [c]. *)
Definition code_increment (c : string) : delta := DObject (JObj [("code", JStr c)]).
Definition sheet_increment (c : string) : delta := DObject (JObj [("csv", JStr c)]).

Definition codeDelta (c : string) : event := mkEvent "data-codeDelta" (JStr c) true.
Definition sheetDelta (c : jsval) : event := mkEvent "data-sheetDelta" c true.

(** The four events [createDocument] writes before dispatching. *)
Definition createDocument_prelude (kind id title : string) : list event :=
  [mkEvent "data-kind" (JStr kind) true; mkEvent "data-id" (JStr id) true;
   mkEvent "data-title" (JStr title) true; mkEvent "data-clear" JNull true].

(** The non-empty string an increment carries in [field], if any: the
    value the handler loop shows for it. *)
Definition field_value (field : string) (dl : delta) : list string :=
  match dl with
  | DObject o =>
      match get_prop o field with
      | Some (JStr c) => if String.eqb c EmptyString then [] else [c]
      | _ => []
      end
  | DOther _ => []
  end.

Definition field_values (field : string) (deltas : list delta) : list string :=
  flat_map (field_value field) deltas.

(** Every ["object"] increment is an object whose [field] is falsy or a
    string (what the schema asks of the provider). *)
Definition field_typed (field : string) (deltas : list delta) : Prop :=
  Forall (fun dl => forall o, dl = DObject o ->
            exists x, get_prop o field = Some x /\ (truthy x = false \/ exists c, x = JStr c))
         deltas.

Definition finishEvent : event := mkEvent "data-finish" JNull true.

(** A sample of the library's string formats, used to evaluate the
    definitions on concrete inputs. *)
Definition sample_formats : Formats := {|
  is_email := fun s => existsb (fun a => Ascii.eqb a "@"%char) (list_ascii_of_string s);
  is_uuid := fun s => Nat.eqb (String.length s) 36;
  is_url := fun s => String.prefix "https://" s
|}.

(** A chat request body: one text part and one file part. *)
Definition sample_chat_body : jsval :=
  JObj [("id", JStr "123e4567-e89b-12d3-a456-426614174000");
        ("message", JObj [("id", JStr "00000000-0000-4000-8000-000000000001");
                          ("role", JStr "user");
                          ("parts", JArr [JObj [("type", JStr "text"); ("text", JStr "hi")];
                                          JObj [("type", JStr "file");
                                                ("mediaType", JStr "image/png");
                                                ("name", JStr "a.png");
                                                ("url", JStr "https://x.test/a.png")]])]);
        ("selectedChatModel", JStr "chat-model");
        ("selectedVisibilityType", JStr "private")].

Definition sample_document : jsval :=
  JObj [("content", JStr "Some text."); ("title", JStr "Notes"); ("kind", JStr "text");
        ("createdAt", JStr "2025-01-01")].

Definition sample_elements (content : jsval) : list jsval :=
  [JObj [("originalSentence", JStr "Some text."); ("suggestedSentence", JStr "Some more text.");
         ("description", JStr "Expand")]].

(** ** Handler runs *)

Lemma last_cons_default {A} (a d : A) (l : list A) :
  last (a :: l) d = last l a.
Proof.
  revert a d. induction l as [|b l IH]; intros a d; [reflexivity|].
  change (last (b :: l) d = last (b :: l) a). rewrite !IH. reflexivity.
Qed.

Lemma assoc_single (k : string) (v : jsval) : assoc k [(k, v)] = Some v.
Proof. simpl. rewrite String.eqb_refl. reflexivity. Qed.

Lemma truthy_str (c : string) : c <> EmptyString -> truthy (JStr c) = true.
Proof.
  intros H. simpl. destruct (String.eqb_spec c EmptyString); [contradiction|reflexivity].
Qed.

Lemma stream_loop_valid (field evType : string) (shown : jsval -> jsval)
    (validate : jsval -> option jsval) (cs : list string) (d : jsval) (log : list event) :
  (forall c, c <> EmptyString ->
     validate (JObj [(field, JStr c)]) = Some (JObj [(field, JStr c)])) ->
  (forall c, shown (JStr c) = JStr c) ->
  Forall (fun c => c <> EmptyString) cs ->
  stream_loop field evType shown validate
    (map (fun c => DObject (JObj [(field, JStr c)])) cs) d log
  = (Ok (last (map JStr cs) d),
     app log (map (fun c => mkEvent evType (JStr c) true) cs)).
Proof.
  intros Hv Hs Hcs. revert d log.
  induction Hcs as [|c cs Hc Hcs IH]; intros d log.
  - simpl. rewrite app_nil_r. reflexivity.
  - cbn [map stream_loop]. unfold bind, read, validate_m, write, ret.
    cbn [get_prop assoc]. rewrite String.eqb_refl, (truthy_str c Hc), (Hv c Hc).
    cbn [get_prop assoc]. rewrite String.eqb_refl, Hs.
    rewrite IH, <- app_assoc, last_cons_default. reflexivity.
Qed.

Lemma stream_loop_skip (field evType : string) (shown : jsval -> jsval)
    (validate : jsval -> option jsval) (o x : jsval) (rest : list delta)
    (d : jsval) (log : list event) :
  get_prop o field = Some x -> truthy x = false ->
  stream_loop field evType shown validate (DObject o :: rest) d log
  = stream_loop field evType shown validate rest d log.
Proof.
  intros Hx Ht. cbn [stream_loop]. unfold bind at 1, read at 1.
  rewrite Hx. unfold ret. rewrite Ht. reflexivity.
Qed.

Lemma stream_loop_invalid (field evType : string) (shown : jsval -> jsval)
    (validate : jsval -> option jsval) (o x : jsval) (rest : list delta)
    (d : jsval) (log : list event) :
  get_prop o field = Some x -> truthy x = true ->
  validate (JObj [(field, x)]) = None ->
  stream_loop field evType shown validate (DObject o :: rest) d log
  = (Throw "ZodError", log).
Proof.
  intros Hx Ht Hv. cbn [stream_loop]. unfold bind, read, validate_m.
  rewrite Hx. unfold ret. rewrite Ht, Hv. reflexivity.
Qed.

Lemma stream_loop_app (field evType : string) (shown : jsval -> jsval)
    (validate : jsval -> option jsval) (l1 l2 : list delta)
    (d : jsval) (log : list event) :
  stream_loop field evType shown validate (l1 ++ l2) d log
  = bind (stream_loop field evType shown validate l1 d)
         (fun d' => stream_loop field evType shown validate l2 d') log.
Proof.
  revert d log. induction l1 as [|[o|t] l1 IH]; intros d log.
  - reflexivity.
  - cbn [app stream_loop]. unfold bind, read, validate_m, write, ret, throw.
    destruct (get_prop o field) as [x|]; [|reflexivity].
    destruct (truthy x); [|apply IH].
    destruct (validate (JObj [(field, x)])) as [vo|]; [|reflexivity].
    destruct (get_prop vo field) as [y|]; [|reflexivity].
    apply IH.
  - apply IH.
Qed.

Section HandlerLemmas.
Context {F : Formats}.

Lemma parse_field_string (field : string) (c : string) :
  c <> EmptyString ->
  parse (ZObject [(field, ZString [CMin (JNum 1)])]) (JObj [(field, JStr c)])
  = Some (JObj [(field, JStr c)]).
Proof.
  intros Hc. destruct c as [|a c]; [contradiction|].
  cbn. rewrite String.eqb_refl.
  replace (1 <=? Z.of_nat (String.length (String a c)))%Z with true
    by (symmetry; apply Z.leb_le; simpl; lia).
  reflexivity.
Qed.

Lemma parse_field_not_string (field : string) (y : jsval) :
  (forall s, y <> JStr s) ->
  parse (ZObject [(field, ZString [CMin (JNum 1)])]) (JObj [(field, y)]) = None.
Proof.
  intros Hy. cbn. rewrite String.eqb_refl.
  destruct y; try reflexivity. exfalso. eapply Hy. reflexivity.
Qed.

End HandlerLemmas.

Section HandlerClaims.
Context {F : Formats}.

Lemma get_prop_single (k : string) (v : jsval) : get_prop (JObj [(k, v)]) k = Some v.
Proof. unfold get_prop. rewrite assoc_single. reflexivity. Qed.

Lemma code_loop_valid (cs : list string) (d : jsval) (log : list event) :
  Forall (fun c => c <> EmptyString) cs ->
  stream_loop "code" "data-codeDelta" (fun c => nullish c (JStr EmptyString))
    codeAdapterSchema_validate (map code_increment cs) d log
  = (Ok (last (map JStr cs) d), app log (map codeDelta cs)).
Proof.
  intros Hcs. apply stream_loop_valid; [|reflexivity|exact Hcs].
  intros c Hc. apply parse_field_string. exact Hc.
Qed.

Lemma sheet_loop_valid (cs : list string) (d : jsval) (log : list event) :
  Forall (fun c => c <> EmptyString) cs ->
  stream_loop "csv" "data-sheetDelta" (fun c => c)
    (fun data => parse sheetStreamingSchema data) (map sheet_increment cs) d log
  = (Ok (last (map JStr cs) d), app log (map (fun c => sheetDelta (JStr c)) cs)).
Proof.
  intros Hcs. apply stream_loop_valid; [|reflexivity|exact Hcs].
  intros c Hc. apply parse_field_string. exact Hc.
Qed.

(** C1 (as amended). In every handler body an ["object"] increment whose
    field is absent or empty (falsy) is skipped with no event and the run
    goes on: after one such increment, [N] valid ones give exactly [N]
    content-delta events from the loop and a normal return (the sheet
    create handler then writes its one final event, [N + 1] in all). An
    increment whose field is truthy but fails validation (not a string)
    is not dropped: the validation throws and the run ends with that
    error, writing nothing for it. *)
Theorem handlers_skip_falsy_increments (o x : jsval) (cs : list string) (log : list event) :
  truthy x = false -> Forall (fun c => c <> EmptyString) cs ->
  (get_prop o "code" = Some x ->
     code_onCreateDocument (DObject o :: map code_increment cs) log
       = (Ok (last (map JStr cs) (JStr EmptyString)), app log (map codeDelta cs)) /\
     code_onUpdateDocument (DObject o :: map code_increment cs) log
       = (Ok (last (map JStr cs) (JStr EmptyString)), app log (map codeDelta cs))) /\
  (get_prop o "csv" = Some x ->
     sheet_onCreateDocument (DObject o :: map sheet_increment cs) log
       = (Ok (last (map JStr cs) (JStr EmptyString)),
          app log (map (fun c => sheetDelta (JStr c)) cs
                   ++ [sheetDelta (last (map JStr cs) (JStr EmptyString))])) /\
     sheet_onUpdateDocument (DObject o :: map sheet_increment cs) log
       = (Ok (last (map JStr cs) (JStr EmptyString)),
          app log (map (fun c => sheetDelta (JStr c)) cs))) /\
  (forall (y : jsval) (rest : list delta), truthy y = true -> (forall s, y <> JStr s) ->
     code_onCreateDocument (DObject (JObj [("code", y)]) :: rest) log = (Throw "ZodError", log) /\
     code_onUpdateDocument (DObject (JObj [("code", y)]) :: rest) log = (Throw "ZodError", log) /\
     sheet_onCreateDocument (DObject (JObj [("csv", y)]) :: rest) log = (Throw "ZodError", log) /\
     sheet_onUpdateDocument (DObject (JObj [("csv", y)]) :: rest) log = (Throw "ZodError", log)).
Proof.
  intros Hx Hcs. split; [|split].
  - intros Ho. unfold code_onCreateDocument, code_onUpdateDocument.
    rewrite !(stream_loop_skip _ _ _ _ o x) by assumption.
    rewrite code_loop_valid by exact Hcs. split; reflexivity.
  - intros Ho. unfold sheet_onCreateDocument, sheet_onUpdateDocument.
    unfold bind. rewrite !(stream_loop_skip _ _ _ _ o x) by assumption.
    rewrite !sheet_loop_valid by exact Hcs.
    split; [|reflexivity]. unfold write, ret.
    rewrite <- app_assoc. reflexivity.
  - intros y rest Hy Hs.
    unfold code_onCreateDocument, code_onUpdateDocument,
      sheet_onCreateDocument, sheet_onUpdateDocument, bind.
    rewrite !(stream_loop_invalid _ _ _ _ _ y) by
      (first [apply get_prop_single | exact Hy
             | apply parse_field_not_string; exact Hs]).
    repeat split.
Qed.

(** C2 (as amended). When the provider stream delivers ["object"]
    increments carrying non-empty code values, [onCreateDocument] of the
    code handler returns the last of them (each increment is the partial
    object so far, so the last one is the whole document), after writing
    one [data-codeDelta] per increment in arrival order. *)
Theorem code_onCreateDocument_returns_last_chunk (cs : list string) (log : list event) :
  Forall (fun c => c <> EmptyString) cs ->
  code_onCreateDocument (map code_increment cs) log
  = (Ok (last (map JStr cs) (JStr EmptyString)), app log (map codeDelta cs)).
Proof. intros Hcs. apply code_loop_valid. exact Hcs. Qed.

Lemma stream_loop_values (field evType : string) (shown : jsval -> jsval)
    (validate : jsval -> option jsval) (deltas : list delta) (d : jsval) (log : list event) :
  (forall c, c <> EmptyString ->
     validate (JObj [(field, JStr c)]) = Some (JObj [(field, JStr c)])) ->
  (forall c, shown (JStr c) = JStr c) ->
  field_typed field deltas ->
  stream_loop field evType shown validate deltas d log
  = (Ok (last (map JStr (field_values field deltas)) d),
     app log (map (fun c => mkEvent evType (JStr c) true) (field_values field deltas))).
Proof.
  intros Hv Hs Hw. revert d log.
  induction Hw as [|dl deltas Hdl Hw IH]; intros d log.
  - simpl. rewrite app_nil_r. reflexivity.
  - destruct dl as [o|t]; [|apply IH].
    destruct (Hdl o eq_refl) as (x & Hx & [Hf | [c ->]]).
    + rewrite (stream_loop_skip _ _ _ _ o x) by assumption.
      unfold field_values. cbn [flat_map field_value]. rewrite Hx.
      assert (Hn : match x with
                   | JStr c => if String.eqb c EmptyString then [] else [c]
                   | _ => [] end = []).
      { destruct x; try reflexivity. simpl in Hf.
        destruct (String.eqb s EmptyString); [reflexivity|discriminate]. }
      rewrite Hn. apply IH.
    + unfold field_values. cbn [flat_map field_value]. rewrite Hx.
      destruct (String.eqb_spec c EmptyString) as [->|Hc].
      * rewrite (stream_loop_skip _ _ _ _ o (JStr EmptyString)) by (assumption || reflexivity).
        apply IH.
      * cbn [stream_loop]. unfold bind, read, validate_m, write, ret.
        rewrite Hx, (truthy_str c Hc), (Hv c Hc). rewrite get_prop_single, Hs.
        fold (field_values field deltas). rewrite IH.
        cbn [app map]. rewrite <- app_assoc, last_cons_default. reflexivity.
Qed.

(** C6 (as amended). The handlers do no change detection of their own:
    in all four handler bodies every ["object"] increment whose field is
    a non-empty string writes one delta event with that value, whatever
    the previous increment carried, and an increment whose field is
    absent or empty writes none. The events are the increments' values
    in order, repeats included; the sheet create handler then writes one
    more event repeating the last value. *)
Theorem handlers_repeat_unchanged_value (deltas : list delta) (log : list event) :
  (field_typed "code" deltas ->
   code_onCreateDocument deltas log
   = (Ok (last (map JStr (field_values "code" deltas)) (JStr EmptyString)),
      app log (map codeDelta (field_values "code" deltas))) /\
   code_onUpdateDocument deltas log
   = (Ok (last (map JStr (field_values "code" deltas)) (JStr EmptyString)),
      app log (map codeDelta (field_values "code" deltas)))) /\
  (field_typed "csv" deltas ->
   sheet_onUpdateDocument deltas log
   = (Ok (last (map JStr (field_values "csv" deltas)) (JStr EmptyString)),
      app log (map (fun c => sheetDelta (JStr c)) (field_values "csv" deltas))) /\
   sheet_onCreateDocument deltas log
   = (Ok (last (map JStr (field_values "csv" deltas)) (JStr EmptyString)),
      app log (map (fun c => sheetDelta (JStr c)) (field_values "csv" deltas)
               ++ [sheetDelta (last (map JStr (field_values "csv" deltas)) (JStr EmptyString))]))).
Proof.
  split.
  - intros Hw. unfold code_onCreateDocument, code_onUpdateDocument.
    rewrite stream_loop_values; [split; reflexivity| |reflexivity|exact Hw].
    intros c Hc. apply parse_field_string. exact Hc.
  - intros Hw. unfold sheet_onCreateDocument, sheet_onUpdateDocument, bind.
    rewrite stream_loop_values; [|intros c Hc; apply parse_field_string; exact Hc
                                 |reflexivity|exact Hw].
    split; [reflexivity|]. unfold write, ret. rewrite <- app_assoc. reflexivity.
Qed.

(** C9. Whenever the sheet handler's [onCreateDocument] returns a content
    [c], the loop over the provider stream returned [c] and exactly one
    more event, [data-sheetDelta] with data [c], was written after it.
    With no increment carrying a non-empty [csv], it writes the empty
    string and returns the empty string. *)
Theorem sheet_onCreateDocument_final_flush (fullStream : list delta) (log : list event) :
  (forall (c : jsval) (log' : list event),
     sheet_onCreateDocument fullStream log = (Ok c, log') ->
     exists loopLog,
       stream_loop "csv" "data-sheetDelta" (fun c => c)
         (fun data => parse sheetStreamingSchema data) fullStream (JStr EmptyString) log
       = (Ok c, loopLog) /\ log' = app loopLog [sheetDelta c]) /\
  (Forall (fun d => match d with
                    | DObject o => exists x, get_prop o "csv" = Some x /\ truthy x = false
                    | DOther _ => True
                    end) fullStream ->
   sheet_onCreateDocument fullStream log
   = (Ok (JStr EmptyString), app log [sheetDelta (JStr EmptyString)])).
Proof.
  split.
  - intros c log' H. unfold sheet_onCreateDocument, bind in H.
    destruct (stream_loop _ _ _ _ fullStream _ log) as [[d|e] loopLog] eqn:E;
      [|discriminate].
    unfold write, ret in H. injection H as <- <-. exists loopLog. split; reflexivity.
  - intros Hall. unfold sheet_onCreateDocument, bind.
    assert (Hloop : forall d,
      stream_loop "csv" "data-sheetDelta" (fun c => c)
        (fun data => parse sheetStreamingSchema data) fullStream d log = (Ok d, log)).
    { induction Hall as [|[o|t] rest Hd Hrest IH]; intros d; [reflexivity| |apply IH].
      destruct Hd as [x [Hx Ht]]. rewrite (stream_loop_skip _ _ _ _ o x) by assumption.
      apply IH. }
    rewrite Hloop. reflexivity.
Qed.

End HandlerClaims.

(** C1, counterexample: an increment whose [code] is the number [5] makes
    the code handler throw before the valid increment that follows is
    seen (no event, no normal return); and the sheet create handler,
    given one skipped and one valid increment, writes two events. *)
Lemma handlers_invalid_increment_cex :
  @code_onCreateDocument sample_formats
    [DObject (JObj [("code", JNum 5)]); code_increment "a"] []
  = (Throw "ZodError", []) /\
  @sheet_onCreateDocument sample_formats [DObject (JObj []); sheet_increment "a"] []
  = (Ok (JStr "a"), [sheetDelta (JStr "a"); sheetDelta (JStr "a")]).
Proof. split; reflexivity. Qed.

Lemma handlers_skip_falsy_increments_witness :
  get_prop (JObj []) "code" = Some JUndef /\
  @code_onCreateDocument sample_formats (DObject (JObj []) :: map code_increment ["a"; "ab"]) []
  = (Ok (JStr "ab"), [codeDelta "a"; codeDelta "ab"]).
Proof.
  split; [reflexivity|].
  destruct (@handlers_skip_falsy_increments sample_formats (JObj []) JUndef ["a"; "ab"] []
              eq_refl ltac:(repeat constructor; discriminate)) as [Hcode _].
  destruct (Hcode eq_refl) as [H _]. exact H.
Defined.

(** C2, counterexample: three chunks ["a"], ["b"], ["c"] give the content
    ["c"], not their concatenation ["abc"]. *)
Lemma code_onCreateDocument_not_concatenation_cex :
  @code_onCreateDocument sample_formats (map code_increment ["a"; "b"; "c"]) []
  = (Ok (JStr "c"), [codeDelta "a"; codeDelta "b"; codeDelta "c"]) /\
  JStr "c" <> JStr "abc".
Proof. split; [reflexivity|discriminate]. Qed.

Lemma code_onCreateDocument_returns_last_chunk_witness :
  Forall (fun c => c <> EmptyString) ["print(1)"; "print(1);print(2)"] /\
  @code_onCreateDocument sample_formats (map code_increment ["print(1)"; "print(1);print(2)"]) []
  = (Ok (JStr "print(1);print(2)"), [codeDelta "print(1)"; codeDelta "print(1);print(2)"]).
Proof.
  split; [repeat constructor; discriminate|].
  apply (@code_onCreateDocument_returns_last_chunk sample_formats).
  repeat constructor; discriminate.
Defined.

(** C6, counterexample, on streams [streamObject] does emit (it drops an
    ["object"] part deep-equal to the previous one): the sheet create
    handler repeats an unchanged value in its final event, and a partial
    object in which only another key changed has its unchanged code
    written again. *)
Lemma handlers_unchanged_value_cex :
  @sheet_onCreateDocument sample_formats [sheet_increment "a"] []
  = (Ok (JStr "a"), [sheetDelta (JStr "a"); sheetDelta (JStr "a")]) /\
  JObj [("code", JStr "a")] <> JObj [("code", JStr "a"); ("language", JStr "python")] /\
  @code_onCreateDocument sample_formats
    [code_increment "a"; DObject (JObj [("code", JStr "a"); ("language", JStr "python")])] []
  = (Ok (JStr "a"), [codeDelta "a"; codeDelta "a"]).
Proof. split; [reflexivity|split; [discriminate|reflexivity]]. Qed.

Lemma handlers_repeat_unchanged_value_witness :
  field_typed "code" [code_increment "x"; DOther "text-delta"; code_increment "x"] /\
  @code_onUpdateDocument sample_formats
    [code_increment "x"; DOther "text-delta"; code_increment "x"] []
  = (Ok (JStr "x"), [codeDelta "x"; codeDelta "x"]).
Proof.
  assert (Hw : field_typed "code" [code_increment "x"; DOther "text-delta"; code_increment "x"]).
  { apply Forall_forall. intros dl Hin o ->. simpl in Hin.
    destruct Hin as [Hd|[Hd|[Hd|[]]]]; try discriminate; injection Hd as <-.
    all: eexists; split; [reflexivity|right; eexists; reflexivity]. }
  split; [exact Hw|].
  destruct (@handlers_repeat_unchanged_value sample_formats
              [code_increment "x"; DOther "text-delta"; code_increment "x"] []) as [H _].
  exact (proj2 (H Hw)).
Defined.

Lemma sheet_onCreateDocument_final_flush_witness :
  @sheet_onCreateDocument sample_formats [DOther "text-delta"; sheet_increment "a,b"] []
  = (Ok (JStr "a,b"), [sheetDelta (JStr "a,b"); sheetDelta (JStr "a,b")]) /\
  exists loopLog,
    stream_loop "csv" "data-sheetDelta" (fun c => c)
      (fun data => @parse sample_formats sheetStreamingSchema data)
      [DOther "text-delta"; sheet_increment "a,b"] (JStr EmptyString) []
    = (Ok (JStr "a,b"), loopLog) /\
    [sheetDelta (JStr "a,b"); sheetDelta (JStr "a,b")] = app loopLog [sheetDelta (JStr "a,b")].
Proof.
  split; [reflexivity|].
  destruct (@sheet_onCreateDocument_final_flush sample_formats
              [DOther "text-delta"; sheet_increment "a,b"] []) as [H _].
  apply H. reflexivity.
Defined.

(** ** The tools *)

Section Tools.
Context {F : Formats}.

Lemma find_handler_none (registry : list documentHandler) (k : string) :
  (forall h, In h registry -> dh_kind h <> k) -> find_handler registry (JStr k) = None.
Proof.
  unfold find_handler. induction registry as [|h rest IH]; intros Hn; [reflexivity|].
  simpl. destruct (String.eqb_spec (dh_kind h) k) as [E|E].
  - exfalso. apply (Hn h); [left; reflexivity|exact E].
  - apply IH. intros h' Hin. apply Hn. right. exact Hin.
Qed.

Lemma find_handler_some (registry : list documentHandler) (k : string) (h : documentHandler) :
  find_handler registry (JStr k) = Some h ->
  dh_kind h = k /\
  exists pre post, registry = (pre ++ h :: post)%list /\ Forall (fun h' => dh_kind h' <> k) pre.
Proof.
  unfold find_handler. induction registry as [|h0 rest IH]; intros Hf; [discriminate|].
  simpl in Hf. destruct (String.eqb_spec (dh_kind h0) k) as [E|E].
  - injection Hf as <-. split; [exact E|]. exists [], rest. split; [reflexivity|constructor].
  - destruct (IH Hf) as [Hk [pre [post [Hr Hpre]]]]. split; [exact Hk|].
    exists (h0 :: pre), post. split; [rewrite Hr; reflexivity|constructor; assumption].
Qed.

(** C7. For both tools, once the input has validated: if no registry
    entry has the document's kind, the tool throws (after the events
    written before the lookup); otherwise the entry found is the first
    whose kind equals the kind exactly, and the run continues with that
    handler and no other. *)
Theorem tools_dispatch_by_exact_kind :
  (forall (artifactKinds : list string) (registry : list documentHandler)
          (id t k : string) (params : jsval) (log : list event),
     parse (createDocumentSchemaV4 artifactKinds) params
       = Some (JObj [("title", JStr t); ("kind", JStr k)]) ->
     ((forall h, In h registry -> dh_kind h <> k) ->
        createDocument_execute artifactKinds registry id params log
        = (Throw ("No document handler found for kind: " ++ k),
           app log (createDocument_prelude k id t))) /\
     (forall h, find_handler registry (JStr k) = Some h ->
        dh_kind h = k /\
        (exists pre post, registry = (pre ++ h :: post)%list /\
                          Forall (fun h' => dh_kind h' <> k) pre) /\
        createDocument_execute artifactKinds registry id params log
        = (_ <- onCreateDocument h (JStr t) ;;
           write finishEvent ;;;
           ret (JObj [("id", JStr id); ("title", JStr t); ("kind", JStr k);
                      ("content", JStr "A document was created and is now visible to the user.")]))
            (app log (createDocument_prelude k id t)))) /\
  (forall (getDocumentById : jsval -> option docrow) (registry : list documentHandler)
          (params : jsval) (i desc : string) (document : docrow) (log : list event),
     parse updateDocumentSchemaV4 params
       = Some (JObj [("id", JStr i); ("description", JStr desc)]) ->
     getDocumentById (JStr i) = Some document ->
     ((forall h, In h registry -> dh_kind h <> doc_kind document) ->
        updateDocument_execute getDocumentById registry params log
        = (Throw ("No document handler found for kind: " ++ doc_kind document),
           app log [mkEvent "data-clear" JNull true])) /\
     (forall h, find_handler registry (JStr (doc_kind document)) = Some h ->
        dh_kind h = doc_kind document /\
        (exists pre post, registry = (pre ++ h :: post)%list /\
                          Forall (fun h' => dh_kind h' <> doc_kind document) pre) /\
        updateDocument_execute getDocumentById registry params log
        = (_ <- onUpdateDocument h document (JStr desc) ;;
           write finishEvent ;;;
           ret (JObj [("id", JStr i); ("title", doc_title document);
                      ("kind", JStr (doc_kind document));
                      ("content", JStr "The document has been updated successfully.")]))
            (app log [mkEvent "data-clear" JNull true]))).
Proof.
  split.
  - intros artifactKinds registry id t k params log Hp. split.
    + intros Hn. unfold createDocument_execute, bind, validate_m. rewrite Hp.
      cbn -[find_handler]. rewrite (find_handler_none registry k Hn).
      unfold throw. rewrite <- !app_assoc. reflexivity.
    + intros h Hf. destruct (find_handler_some registry k h Hf) as [Hk Hpre].
      split; [exact Hk|]. split; [exact Hpre|].
      unfold createDocument_execute, bind at 1 2 3, validate_m. rewrite Hp.
      cbn -[find_handler onCreateDocument bind]. rewrite Hf.
      cbv beta iota delta [bind write ret createDocument_prelude]. rewrite <- !app_assoc. reflexivity.
  - intros getDocumentById registry params i desc document log Hp Hd. split.
    + intros Hn. unfold updateDocument_execute, bind, validate_m. rewrite Hp.
      cbn -[find_handler]. rewrite Hd.
      rewrite (find_handler_none registry (doc_kind document) Hn). reflexivity.
    + intros h Hf. destruct (find_handler_some registry _ h Hf) as [Hk Hpre].
      split; [exact Hk|]. split; [exact Hpre|].
      unfold updateDocument_execute, bind at 1 2 3, validate_m. rewrite Hp.
      cbn -[find_handler onUpdateDocument bind]. rewrite Hd.
      unfold bind at 1, write at 1. rewrite Hf. reflexivity.
Qed.

(** C8. In a [createDocument] run whose input validates, whose kind has a
    handler, and whose handler returns normally after appending [hlog]
    (its content deltas), the data stream receives [data-kind],
    [data-id], [data-title], [data-clear] in that order before the
    handler runs, then the handler's events, then [data-finish]; so
    nothing the handler writes precedes [data-clear], and when the
    handler writes no [data-finish] itself, [data-finish] occurs exactly
    once, last. *)
Theorem createDocument_event_order (artifactKinds : list string)
    (registry : list documentHandler) (id t k : string) (params : jsval)
    (h : documentHandler) (hres : jsval) (log hlog : list event) :
  parse (createDocumentSchemaV4 artifactKinds) params
    = Some (JObj [("title", JStr t); ("kind", JStr k)]) ->
  find_handler registry (JStr k) = Some h ->
  onCreateDocument h (JStr t) (app log (createDocument_prelude k id t))
    = (Ok hres, app (app log (createDocument_prelude k id t)) hlog) ->
  Forall (fun e => ev_type e <> "data-finish") hlog ->
  exists r,
    createDocument_execute artifactKinds registry id params log
    = (Ok r, app log (createDocument_prelude k id t ++ hlog ++ [finishEvent])%list) /\
    length (filter (fun e => String.eqb (ev_type e) "data-finish")
                   (createDocument_prelude k id t ++ hlog ++ [finishEvent])%list) = 1.
Proof.
  intros Hp Hf Hh Hno.
  eexists. split.
  - unfold createDocument_execute, bind at 1 2 3, validate_m. rewrite Hp.
    cbn -[find_handler onCreateDocument bind]. rewrite Hf.
    cbv beta iota delta [bind write ret]. rewrite <- !app_assoc. simpl app.
    unfold createDocument_prelude in Hh |- *. rewrite Hh, <- !app_assoc. reflexivity.
  - rewrite !filter_app.
    assert (Hnil : filter (fun e => String.eqb (ev_type e) "data-finish") hlog = []).
    { clear Hh. induction Hno as [|e rest He _ IH]; [reflexivity|].
      simpl. destruct (String.eqb_spec (ev_type e) "data-finish"); [contradiction|exact IH]. }
    rewrite Hnil. reflexivity.
Qed.

End Tools.

Lemma tools_dispatch_by_exact_kind_witness :
  @parse sample_formats (createDocumentSchemaV4 ["code"; "sheet"])
    (JObj [("title", JStr "demo"); ("kind", JStr "sheet")])
  = Some (JObj [("title", JStr "demo"); ("kind", JStr "sheet")]) /\
  @createDocument_execute sample_formats ["code"; "sheet"]
    [@codeDocumentHandler sample_formats (fun _ => [])] "u1"
    (JObj [("title", JStr "demo"); ("kind", JStr "sheet")]) []
  = (Throw ("No document handler found for kind: " ++ "sheet"),
     createDocument_prelude "sheet" "u1" "demo").
Proof.
  split; [reflexivity|].
  destruct (@tools_dispatch_by_exact_kind sample_formats) as [Hc _].
  destruct (Hc ["code"; "sheet"] [@codeDocumentHandler sample_formats (fun _ => [])]
              "u1" "demo" "sheet" (JObj [("title", JStr "demo"); ("kind", JStr "sheet")])
              [] eq_refl) as [Hnone _].
  apply Hnone. intros h [<-|[]]. discriminate.
Defined.

Lemma createDocument_event_order_witness :
  exists r,
    @createDocument_execute sample_formats ["code"; "sheet"]
      [@codeDocumentHandler sample_formats (fun _ => [code_increment "x"])] "u1"
      (JObj [("title", JStr "demo"); ("kind", JStr "code")]) []
    = (Ok r, app [] (createDocument_prelude "code" "u1" "demo" ++ [codeDelta "x"]
                     ++ [finishEvent])%list) /\
    length (filter (fun e => String.eqb (ev_type e) "data-finish")
                   (createDocument_prelude "code" "u1" "demo" ++ [codeDelta "x"]
                    ++ [finishEvent])%list) = 1.
Proof.
  apply (@createDocument_event_order sample_formats ["code"; "sheet"]
           [@codeDocumentHandler sample_formats (fun _ => [code_increment "x"])]
           "u1" "demo" "code" (JObj [("title", JStr "demo"); ("kind", JStr "code")])
           (@codeDocumentHandler sample_formats (fun _ => [code_increment "x"]))
           (JStr "x") [] [codeDelta "x"]).
  - reflexivity.
  - reflexivity.
  - reflexivity.
  - constructor; [discriminate|constructor].
Defined.

(** ** The adapter *)

Lemma zschema_ind' (P : zschema -> Prop)
    (Hobj : forall sh, P (ZObject sh)) (Hstr : forall cs, P (ZString cs))
    (Henum : forall vs, P (ZEnum vs)) (Harr : forall e, P e -> P (ZArray e))
    (Hun : forall os, Forall P os -> P (ZUnion os))
    (Hopt : forall i, P i -> P (ZOptional i)) (Hlit : forall v, P (ZLiteral v))
    (Hany : P ZAny) :
  forall s, P s.
Proof.
  refine (fix IH (s : zschema) : P s :=
            match s with
            | ZObject sh => Hobj sh
            | ZString cs => Hstr cs
            | ZEnum vs => Henum vs
            | ZArray e => Harr e (IH e)
            | ZUnion os =>
                Hun os ((fix go (os : list zschema) : Forall P os :=
                           match os with
                           | [] => Forall_nil P
                           | o :: r => Forall_cons o (IH o) (go r)
                           end) os)
            | ZOptional i => Hopt i (IH i)
            | ZLiteral v => Hlit v
            | ZAny => Hany
            end).
Qed.

Lemma convert_checks_layout_v3 (cs : list check) :
  convert_checks (map check_layout_v3 cs) = Ok cs.
Proof.
  induction cs as [|c cs IH]; [reflexivity|].
  destruct c; cbn [map convert_checks]; rewrite IH; reflexivity.
Qed.

Lemma enum_values_layout (vs : list string) : enum_values (JArr (map JStr vs)) = vs.
Proof. induction vs as [|v vs IH]; [reflexivity|]. exact (f_equal (cons v) IH). Qed.

Lemma convert_layout_v3 (s : zschema) :
  forall fuel, convert_depth s < fuel ->
  exists w, convert_fuel fuel (layout_v3 s) = Ok (w, v3_image s).
Proof.
  induction s as [sh|cs|vs|e IH|os IH|i IH|v|] using zschema_ind';
    intros [|fuel] Hf; try (simpl in Hf; lia).
  - eexists. reflexivity.
  - eexists. cbn -[convert_checks map]. rewrite convert_checks_layout_v3. reflexivity.
  - eexists. cbn -[enum_values map]. rewrite enum_values_layout. reflexivity.
  - simpl in Hf. destruct (IH fuel ltac:(lia)) as [w Hw].
    exists w. simpl. rewrite Hw. reflexivity.
  - simpl in Hf.
    assert (Hl : exists w,
      (fix conv_list (xs : list jsval) : outcome (list string * list zschema) :=
         match xs with
         | [] => Ok ([], [])
         | x :: rest =>
             r <-? convert_fuel fuel x ;; rs <-? conv_list rest ;;
             Ok (fst r ++ fst rs, snd r :: snd rs)%list
         end)
        ((fix go (os : list zschema) : list jsval :=
            match os with [] => [] | x :: r => layout_v3 x :: go r end) os)
      = Ok (w, (fix go (os : list zschema) : list zschema :=
                  match os with [] => [] | o :: r => v3_image o :: go r end) os)).
    { induction IH as [|o os Ho Hos IHos]; [exists []; reflexivity|].
      simpl in Hf. destruct (Ho fuel ltac:(lia)) as [w1 H1].
      destruct (IHos ltac:(lia)) as [w2 H2].
      exists (w1 ++ w2)%list. simpl. rewrite H1. simpl. rewrite H2. reflexivity. }
    destruct Hl as [w Hw]. exists w. simpl. rewrite Hw. reflexivity.
  - simpl in Hf. destruct (IH fuel ltac:(lia)) as [w Hw].
    exists w. simpl. rewrite Hw. reflexivity.
  - eexists. reflexivity.
  - eexists. reflexivity.
Qed.

Lemma convert_depth_lt_jsize (s : zschema) : convert_depth s < jsize (layout_v3 s).
Proof.
  induction s as [sh|cs|vs|e IH|os IH|i IH|v|] using zschema_ind'; simpl; try lia.
  induction IH as [|o os Ho Hos IHos]; simpl in *; lia.
Qed.

Lemma createEquivalentV3Schema_layout_v3 (s : zschema) :
  exists w, createEquivalentV3Schema (layout_v3 s) = Ok (w, v3_image s).
Proof. apply convert_layout_v3, convert_depth_lt_jsize. Qed.

Lemma jsize_succ (v : jsval) : exists n, jsize v = S n.
Proof. destruct v; simpl; eauto. Qed.

Lemma createEquivalentV3Schema_unfold (v : jsval) :
  exists n, createEquivalentV3Schema v = convert_fuel (S n) v.
Proof.
  unfold createEquivalentV3Schema. destruct (jsize_succ v) as [n Hn].
  rewrite Hn. eauto.
Qed.

Lemma createEquivalentV3Schema_layout_v4 (s : zschema) :
  createEquivalentV3Schema (layout_v4 s) = Ok ([], ZAny).
Proof. destruct s; reflexivity. Qed.

Section AdapterClaims.
Context {F : Formats}.

(** C4: whatever the runtime layout, when [createStreamingToolSchema(S)]
    returns a wrapper, its [validate] is the new library's [parse] on [S]
    (the parsed value when the payload conforms, a thrown validation error
    otherwise), its [v4Schema] is [S], and two wrappers for the same [S]
    validate alike whatever old-library schema each one carries: the
    decision never reads [aiSdkSchema]. *)
Theorem createStreamingToolSchema_validate_is_parse
    (layout : zschema -> jsval) (S : zschema) (w : AISDKCompatibleSchema) :
  createStreamingToolSchema layout S = Ok w ->
  v4Schema w = S /\
  (forall p, validate w p = parse S p) /\
  (forall layout' w', createStreamingToolSchema layout' S = Ok w' ->
     forall p, validate w' p = validate w p).
Proof.
  assert (Hgen : forall layout w, createStreamingToolSchema layout S = Ok w ->
                 v4Schema w = S /\ forall p, validate w p = parse S p).
  { clear layout w. intros layout w H. unfold createStreamingToolSchema, obind in H.
    destruct (convertToV3Schema (layout S)); inversion H; subst; auto. }
  intros H. destruct (Hgen _ _ H) as [Hv Hp].
  split; [exact Hv|]. split; [exact Hp|].
  intros layout' w' H' p. destruct (Hgen _ _ H') as [_ Hp']. rewrite Hp, Hp'. reflexivity.
Qed.

(** C3: the converter misses the equivalence it attempts. Under the
    layout of the pinned library every object loses its whole shape, and
    under the [zod] 4 layout every schema becomes [any]: for the code
    artifact's schema [{code: string().min(1)}] the converted schema
    accepts [{}] (classic layout) or [5] ([zod] 4 layout), which the
    original rejects. *)
Theorem createEquivalentV3Schema_not_equivalent :
  (forall S, exists w, createEquivalentV3Schema (layout_v3 S) = Ok (w, v3_image S)) /\
  createEquivalentV3Schema (layout_v3 codeStreamingSchemaV4) = Ok ([], ZObject []) /\
  accepts (ZObject []) (JObj []) = true /\
  accepts codeStreamingSchemaV4 (JObj []) = false /\
  createEquivalentV3Schema (layout_v4 codeStreamingSchemaV4) = Ok ([], ZAny) /\
  accepts ZAny (JNum 5) = true /\
  accepts codeStreamingSchemaV4 (JNum 5) = false.
Proof.
  split; [exact createEquivalentV3Schema_layout_v3|].
  repeat split; reflexivity.
Qed.

End AdapterClaims.

Lemma jsize_obj_cons (k : string) (v : jsval) (r : list (string * jsval)) :
  jsize (JObj ((k, v) :: r)) = jsize v + jsize (JObj r).
Proof. simpl. lia. Qed.

Lemma jsize_arr_cons (v : jsval) (r : list jsval) :
  jsize (JArr (v :: r)) = jsize v + jsize (JArr r).
Proof. simpl. lia. Qed.

Lemma jsize_assoc (k : string) (ps : list (string * jsval)) (x : jsval) :
  assoc k ps = Some x -> jsize x < jsize (JObj ps).
Proof.
  induction ps as [|[k' v] r IH]; simpl assoc; [discriminate|].
  rewrite jsize_obj_cons. destruct (String.eqb k k').
  - intros [= ->]. destruct (jsize_succ (JObj r)) as [n Hn]. lia.
  - intros H. specialize (IH H). lia.
Qed.

Lemma jsize_in (o : jsval) (os : list jsval) :
  In o os -> jsize o < jsize (JArr os).
Proof.
  induction os as [|x r IH]; [intros []|].
  rewrite jsize_arr_cons. intros [->|H].
  - destruct (jsize_succ (JArr r)) as [n Hn]. lia.
  - specialize (IH H). lia.
Qed.

Lemma convert_checks_objects (cs : list jsval) :
  Forall (fun c => exists cps, c = JObj cps) cs -> exists r, convert_checks cs = Ok r.
Proof.
  induction 1 as [|c cs [cps ->] _ [r Hr]]; [eexists; reflexivity|].
  cbn [convert_checks]. rewrite Hr.
  unfold convert_check, oread. cbn [get_prop obind].
  repeat match goal with |- context [if ?b then _ else _] => destruct b end;
    eexists; reflexivity.
Qed.

Lemma convert_library_node (v : jsval) :
  library_node v -> forall n, jsize v <= n -> exists r, convert_fuel n v = Ok r.
Proof.
  induction 1 as [ns ps r Hd Ht Hs
                 |ns ps cs Hd Ht Hc Hcs
                 |ns ps Hd Ht
                 |ns ps t Hd Ht Hty Hn IH
                 |ns ps os Hd Ht Ho Hn IH
                 |ns ps i Hd Ht Hi Hn IH
                 |ns ps Hd Ht
                 |ns ps t Hd Ht Hk
                 |ns ps Hd Ht];
    intros [|n] Hle; try (simpl in Hle; lia);
    assert (Hlt := jsize_assoc _ _ _ Hd);
    cbn [convert_fuel]; unfold oread at 1; cbn [get_prop]; rewrite Hd; cbn [obind typeof_object];
    unfold oread at 1; cbn [get_prop]; rewrite Ht; cbn [obind].
  - simpl. rewrite Hs. simpl. eexists. reflexivity.
  - simpl. rewrite Hc. destruct (convert_checks_objects cs Hcs) as [r Hr].
    simpl. rewrite Hr. eexists. reflexivity.
  - simpl. eexists. reflexivity.
  - simpl. rewrite Hty. simpl.
    assert (Ht2 := jsize_assoc _ _ _ Hty).
    destruct (IH n ltac:(lia)) as [r Hr]. rewrite Hr. eexists. reflexivity.
  - simpl. rewrite Ho. cbn [obind].
    assert (Ht2 := jsize_assoc _ _ _ Ho).
    assert (Hl : forall xs, (forall o, In o xs -> exists r, convert_fuel n o = Ok r) ->
      exists rs, (fix conv_list (xs : list jsval) : outcome (list string * list zschema) :=
         match xs with
         | [] => Ok ([], [])
         | x :: rest =>
             r <-? convert_fuel n x ;; rs <-? conv_list rest ;;
             Ok (fst r ++ fst rs, snd r :: snd rs)%list
         end) xs = Ok rs).
    { induction xs as [|x xs IHx]; intros Hx; [eexists; reflexivity|].
      destruct (Hx x (or_introl eq_refl)) as [r1 H1].
      destruct IHx as [r2 H2]; [intros o Ho'; apply Hx; right; exact Ho'|].
      rewrite H1. cbn [obind]. rewrite H2. eexists. reflexivity. }
    destruct (Hl os) as [rs Hrs].
    { intros o Hin. apply IH; [exact Hin|]. assert (H3 := jsize_in o os Hin). lia. }
    rewrite Hrs. eexists. reflexivity.
  - simpl. rewrite Hi. simpl.
    assert (Ht2 := jsize_assoc _ _ _ Hi).
    destruct (IH n ltac:(lia)) as [r Hr]. rewrite Hr. eexists. reflexivity.
  - simpl. eexists. reflexivity.
  - rewrite Hk. destruct (truthy t); eexists; reflexivity.
  - simpl. eexists. reflexivity.
Qed.

Lemma library_node_layout_v3 (S : zschema) : library_node (layout_v3 S).
Proof.
  induction S as [sh|cs|vs|e IH|os IH|i IH|v|] using zschema_ind'.
  - eapply LNObject; reflexivity.
  - eapply LNString; try reflexivity.
    induction cs as [|c cs IHc]; constructor; [|exact IHc].
    destruct c; eexists; reflexivity.
  - eapply LNEnum; reflexivity.
  - eapply LNArray; [reflexivity|reflexivity|reflexivity|exact IH].
  - eapply LNUnion; [reflexivity|reflexivity|reflexivity|].
    induction IH as [|o os Ho Hos IHos]; [intros _ []|].
    intros x [<-|Hx]; [exact Ho|exact (IHos x Hx)].
  - eapply LNOptional; [reflexivity|reflexivity|reflexivity|exact IH].
  - eapply LNLiteral; reflexivity.
  - eapply LNOther; reflexivity.
Qed.

Lemma library_node_layout_v4 (S : zschema) : library_node (layout_v4 S).
Proof. destruct S; eapply LNV4; reflexivity. Qed.

(** Every node of the [zod] 4 layout lacks [typeName]: the converter
    turns it into [any] without any diagnostic, even for a kind it
    handles, such as the code artifact's object schema. *)
Lemma createEquivalentV3Schema_silent_fallback_cex :
  library_node (layout_v4 codeStreamingSchemaV4) /\
  get_prop (JObj [("type", JStr "object");
                  ("shape", JObj [("code", layout_v4 (ZString [CMin (JNum 1)]))])])
    "typeName" = Some JUndef /\
  createEquivalentV3Schema (layout_v4 codeStreamingSchemaV4) = Ok ([], ZAny).
Proof.
  split; [apply library_node_layout_v4|]. split; reflexivity.
Qed.

Lemma convert_step_def (n : nat) (v d : jsval) :
  get_prop v "_def" = Some d ->
  convert_fuel (S n) v = convert_fuel (S n) (JObj [("_def", d)]).
Proof. intros Hd. simpl. unfold oread at 1 3. rewrite Hd. reflexivity. Qed.

Section AdapterTotality.
Context {F : Formats}.

(** C5 (amended): the converter does not throw on any schema the library
    builds, in either runtime layout, nested nodes of kinds it does not
    recognize ([z.array(z.number())], string checks such as [regex])
    included. A node with a truthy [typeName] it does not recognize
    becomes [any] with one [console.warn] diagnostic; a node whose
    [_def] is not an object, or has no truthy [typeName] (every node of
    the [zod] 4 layout), becomes [any] with no diagnostic; and [any]
    accepts every value. *)
Theorem createEquivalentV3Schema_total_on_library_nodes :
  (forall v, library_node v -> exists w s, createEquivalentV3Schema v = Ok (w, s)) /\
  (forall S, library_node (layout_v3 S) /\ library_node (layout_v4 S)) /\
  (forall v d, get_prop v "_def" = Some d -> typeof_object d = false ->
     createEquivalentV3Schema v = Ok ([], ZAny)) /\
  (forall v ps t, get_prop v "_def" = Some (JObj ps) ->
     get_prop (JObj ps) "typeName" = Some t -> truthy t = false ->
     createEquivalentV3Schema v = Ok ([], ZAny)) /\
  (forall v ps t, get_prop v "_def" = Some (JObj ps) ->
     get_prop (JObj ps) "typeName" = Some t -> truthy t = true ->
     kind_of_typeName t = KUnknown ->
     createEquivalentV3Schema v
     = Ok (["Unknown Zod v4 schema type: " ++ js_display t ++ ". Using generic schema."],
           ZAny)) /\
  (forall x, parse ZAny x = Some x).
Proof.
  split.
  { intros v Hv. destruct (convert_library_node v Hv (jsize v) (le_n _)) as [[w s] Hr].
    exists w, s. exact Hr. }
  split; [intros S; split; [apply library_node_layout_v3|apply library_node_layout_v4]|].
  split.
  { intros v d Hd Ht. destruct (createEquivalentV3Schema_unfold v) as [n ->].
    rewrite (convert_step_def n v d Hd). simpl. unfold oread at 1. simpl.
    rewrite Ht. reflexivity. }
  split.
  { intros v ps t Hd Hn Ht. destruct (createEquivalentV3Schema_unfold v) as [n ->].
    rewrite (convert_step_def n v _ Hd). simpl.
    simpl in Hn. injection Hn as Hn. rewrite Hn. rewrite Ht. reflexivity. }
  split.
  { intros v ps t Hd Hn Ht Hk. destruct (createEquivalentV3Schema_unfold v) as [n ->].
    rewrite (convert_step_def n v _ Hd). simpl.
    simpl in Hn. injection Hn as Hn. rewrite Hn. rewrite Ht, Hk. reflexivity. }
  intros x. reflexivity.
Qed.

End AdapterTotality.

Lemma createStreamingToolSchema_validate_is_parse_witness :
  exists w, createStreamingToolSchema (F:=sample_formats) layout_v3 codeStreamingSchemaV4 = Ok w /\
  v4Schema w = codeStreamingSchemaV4 /\
  validate w (JNum 5) = None /\
  validate w (JObj [("code", JStr "x")]) = Some (JObj [("code", JStr "x")]).
Proof.
  eexists. split; [reflexivity|].
  destruct (createStreamingToolSchema_validate_is_parse (F:=sample_formats)
              layout_v3 codeStreamingSchemaV4 _ eq_refl) as [Hv [Hp _]].
  split; [exact Hv|]. rewrite !Hp. split; reflexivity.
Defined.

Lemma createEquivalentV3Schema_total_on_library_nodes_witness :
  let node :=
    JObj [("_def", JObj [("type", JObj [("_def", JObj [("checks", JArr []);
                                                        ("typeName", JStr "ZodNumber")])]);
                         ("typeName", JStr "ZodArray")])] in
  library_node node /\
  exists w s, createEquivalentV3Schema node = Ok (w, s).
Proof.
  intros node.
  assert (Hn : library_node node).
  { eapply LNArray; [reflexivity|reflexivity|reflexivity|].
    eapply LNOther; reflexivity. }
  split; [exact Hn|].
  destruct (createEquivalentV3Schema_total_on_library_nodes (F:=sample_formats))
    as (H & _).
  exact (H node Hn).
Defined.

(** ** Inverting [parse] *)

Section ParseInversion.
Context {F : Formats}.

Lemma parse_object_inv (sh : list (string * zschema)) (v out : jsval) :
  parse (ZObject sh) v = Some out -> exists ps, v = JObj ps.
Proof. destruct v; simpl; try discriminate. eauto. Qed.

Lemma parse_object_field (sh : list (string * zschema)) (ps : list (string * jsval))
    (out : jsval) (k : string) (sk : zschema) :
  parse (ZObject sh) (JObj ps) = Some out -> In (k, sk) sh ->
  exists x y, get_prop (JObj ps) k = Some x /\ parse sk x = Some y.
Proof.
  revert out. induction sh as [|[k0 sk0] rest IH]; intros out H Hin; [destruct Hin|].
  simpl in H. destruct (parse sk0 _) eqn:H0; [|discriminate].
  match type of H with
  | context [match ?g with Some ys => Some (if _ then _ else _) | None => None end] =>
      destruct g eqn:Hg; [|discriminate]
  end.
  destruct Hin as [Heq|Hin].
  - inversion Heq; subst. eexists _, _. split; [reflexivity|exact H0].
  - apply (IH (JObj l)); [|exact Hin]. simpl. rewrite Hg. reflexivity.
Qed.

Lemma parse_string_inv (cs : list check) (v out : jsval) :
  parse (ZString cs) v = Some out ->
  exists s, v = JStr s /\ forallb (check_ok s) cs = true.
Proof.
  destruct v; simpl; try discriminate.
  destruct (forallb _ _) eqn:E; [|discriminate]. eauto.
Qed.

Lemma parse_enum_inv (vs : list string) (v out : jsval) :
  parse (ZEnum vs) v = Some out -> exists s, v = JStr s /\ In s vs.
Proof.
  destruct v; simpl; try discriminate.
  destruct (existsb _ _) eqn:E; [|discriminate]. intros _.
  apply existsb_exists in E. destruct E as [s' [Hin Heq]].
  apply String.eqb_eq in Heq. subst. eauto.
Qed.

Lemma parse_array_inv (e : zschema) (v out : jsval) :
  parse (ZArray e) v = Some out ->
  exists xs, v = JArr xs /\ Forall (fun x => exists y, parse e x = Some y) xs.
Proof.
  destruct v as [| | | | |xs| |]; simpl; try discriminate.
  intros H. exists xs. split; [reflexivity|]. revert out H.
  induction xs as [|x xs IH]; intros out H; [constructor|].
  destruct (parse e x) eqn:Hx; [|discriminate].
  match type of H with
  | context [match ?g with Some ys => Some (?y :: ys) | None => None end] =>
      destruct g eqn:Hg; [|discriminate]
  end.
  constructor; [eauto|]. apply (IH (JArr l)). reflexivity.
Qed.

Lemma parse_union2_inv (a b : zschema) (v out : jsval) :
  parse (ZUnion [a; b]) v = Some out ->
  (exists y, parse a v = Some y) \/ (exists y, parse b v = Some y).
Proof.
  simpl. destruct (parse a v) eqn:Ha; [eauto|].
  destruct (parse b v) eqn:Hb; [eauto|discriminate].
Qed.

Lemma check_ok_min_max (s : string) (lo hi : Z) :
  forallb (check_ok s) [CMin (JNum lo); CMax (JNum hi)] = true ->
  (lo <= Z.of_nat (String.length s) <= hi)%Z.
Proof.
  simpl. rewrite !Bool.andb_true_iff. intros [H1 [H2 _]].
  apply Z.leb_le in H1. apply Z.leb_le in H2. lia.
Qed.

End ParseInversion.

Ltac in_shape := simpl; repeat first [left; reflexivity | right].

Section ChatSchema.
Context {F : Formats}.

(** What a part of an accepted chat message satisfies. *)
Lemma parse_partSchema (p y : jsval) :
  parse partSchema p = Some y ->
  (exists t, get_prop p "type" = Some (JStr "text") /\ get_prop p "text" = Some (JStr t) /\
             1 <= String.length t <= 2000) \/
  (exists mt n u, get_prop p "type" = Some (JStr "file") /\
     get_prop p "mediaType" = Some (JStr mt) /\ (mt = "image/jpeg" \/ mt = "image/png") /\
     get_prop p "name" = Some (JStr n) /\ 1 <= String.length n <= 100 /\
     get_prop p "url" = Some (JStr u) /\ is_url u = true).
Proof.
  intros H. destruct (parse_union2_inv _ _ _ _ H) as [[y1 H1]|[y1 H1]].
  - left. destruct (parse_object_inv _ _ _ H1) as [ps ->].
    destruct (parse_object_field _ _ _ "type" (ZEnum ["text"]) H1 ltac:(in_shape))
      as (x1 & z1 & G1 & P1).
    destruct (parse_enum_inv _ _ _ P1) as (s1 & -> & [<-|[]]).
    destruct (parse_object_field _ _ _ "text" (ZString [CMin (JNum 1); CMax (JNum 2000)])
                H1 ltac:(in_shape)) as (x2 & z2 & G2 & P2).
    destruct (parse_string_inv _ _ _ P2) as (t & -> & Ht).
    apply check_ok_min_max in Ht.
    exists t. repeat split; auto; lia.
  - right. destruct (parse_object_inv _ _ _ H1) as [ps ->].
    destruct (parse_object_field _ _ _ "type" (ZEnum ["file"]) H1 ltac:(in_shape))
      as (x1 & z1 & G1 & P1).
    destruct (parse_enum_inv _ _ _ P1) as (s1 & -> & [<-|[]]).
    destruct (parse_object_field _ _ _ "mediaType" (ZEnum ["image/jpeg"; "image/png"])
                H1 ltac:(in_shape)) as (x2 & z2 & G2 & P2).
    destruct (parse_enum_inv _ _ _ P2) as (mt & -> & Hmt).
    destruct (parse_object_field _ _ _ "name" (ZString [CMin (JNum 1); CMax (JNum 100)])
                H1 ltac:(in_shape)) as (x3 & z3 & G3 & P3).
    destruct (parse_string_inv _ _ _ P3) as (n & -> & Hn).
    apply check_ok_min_max in Hn.
    destruct (parse_object_field _ _ _ "url" (ZString [CUrl]) H1 ltac:(in_shape))
      as (x4 & z4 & G4 & P4).
    destruct (parse_string_inv _ _ _ P4) as (u & -> & Hu).
    simpl in Hu. rewrite Bool.andb_true_r in Hu.
    exists mt, n, u. repeat split; auto; try lia.
    destruct Hmt as [<-|[<-|[]]]; auto.
Qed.

(** C10: a chat request body that [postRequestBodySchema] accepts has
    UUIDs as its [id] and [message.id], [message.role] equal to
    ["user"], and every part of [message.parts] is a text part of 1 to
    2000 characters or a file part with media type [image/jpeg] or
    [image/png], a name of 1 to 100 characters and a valid URL; so a body
    that breaks any of these is rejected. *)
Theorem postRequestBodySchema_accepted_bodies (body : jsval) :
  accepts postRequestBodySchema body = true ->
  exists bid m mid parts,
    get_prop body "id" = Some (JStr bid) /\ is_uuid bid = true /\
    get_prop body "message" = Some m /\
    get_prop m "id" = Some (JStr mid) /\ is_uuid mid = true /\
    get_prop m "role" = Some (JStr "user") /\
    get_prop m "parts" = Some (JArr parts) /\
    Forall (fun p =>
      (exists t, get_prop p "type" = Some (JStr "text") /\
                 get_prop p "text" = Some (JStr t) /\ 1 <= String.length t <= 2000) \/
      (exists mt n u, get_prop p "type" = Some (JStr "file") /\
         get_prop p "mediaType" = Some (JStr mt) /\ (mt = "image/jpeg" \/ mt = "image/png") /\
         get_prop p "name" = Some (JStr n) /\ 1 <= String.length n <= 100 /\
         get_prop p "url" = Some (JStr u) /\ is_url u = true)) parts.
Proof.
  unfold accepts. destruct (parse postRequestBodySchema body) as [out|] eqn:Hb;
    [intros _|discriminate].
  destruct (parse_object_inv _ _ _ Hb) as [ps ->].
  destruct (parse_object_field _ _ _ "id" (ZString [CUuid]) Hb ltac:(in_shape))
    as (x1 & z1 & G1 & P1).
  destruct (parse_string_inv _ _ _ P1) as (bid & -> & Hbid).
  destruct (parse_object_field _ _ _ "message"
              (ZObject [("id", ZString [CUuid]); ("role", ZEnum ["user"]);
                        ("parts", ZArray partSchema)]) Hb ltac:(in_shape))
    as (m & z2 & G2 & P2).
  destruct (parse_object_inv _ _ _ P2) as [mps ->].
  destruct (parse_object_field _ _ _ "id" (ZString [CUuid]) P2 ltac:(in_shape))
    as (x3 & z3 & G3 & P3).
  destruct (parse_string_inv _ _ _ P3) as (mid & -> & Hmid).
  destruct (parse_object_field _ _ _ "role" (ZEnum ["user"]) P2 ltac:(in_shape))
    as (x4 & z4 & G4 & P4).
  destruct (parse_enum_inv _ _ _ P4) as (r & -> & [<-|[]]).
  destruct (parse_object_field _ _ _ "parts" (ZArray partSchema) P2 ltac:(in_shape))
    as (x5 & z5 & G5 & P5).
  destruct (parse_array_inv _ _ _ P5) as (parts & -> & Hparts).
  simpl in Hbid, Hmid. rewrite Bool.andb_true_r in Hbid, Hmid.
  exists bid, (JObj mps), mid, parts. repeat split; auto.
  eapply Forall_impl; [|exact Hparts]. intros p [y Hy]. exact (parse_partSchema p y Hy).
Qed.

End ChatSchema.

Lemma postRequestBodySchema_accepted_bodies_witness :
  accepts (F:=sample_formats) postRequestBodySchema sample_chat_body = true /\
  exists bid, get_prop sample_chat_body "id" = Some (JStr bid) /\
              is_uuid (Formats:=sample_formats) bid = true.
Proof.
  split; [vm_compute; reflexivity|].
  destruct (postRequestBodySchema_accepted_bodies (F:=sample_formats) sample_chat_body
              ltac:(vm_compute; reflexivity)) as (bid & m & mid & parts & H1 & H2 & _).
  exists bid. split; assumption.
Defined.

(** ** Handler runs in general *)

Lemma stream_loop_written (field evType : string) (shown : jsval -> jsval)
    (validate : jsval -> option jsval) :
  (forall x vo y, validate (JObj [(field, x)]) = Some vo -> get_prop vo field = Some y ->
                  shown y = y) ->
  forall deltas d log o log',
  stream_loop field evType shown validate deltas d log = (o, log') ->
  exists evs, log' = app log evs /\
    Forall (fun e => ev_type e = evType /\ ev_transient e = true) evs /\
    (forall r, o = Ok r -> r = last (map ev_data evs) d).
Proof.
  intros Hshown deltas.
  induction deltas as [|[obj|t] rest IH]; intros d log o log' H.
  - cbn in H. inversion H; subst. exists []. rewrite app_nil_r.
    split; [reflexivity|]. split; [constructor|]. intros r Hr. inversion Hr. reflexivity.
  - cbn [stream_loop] in H. unfold bind, read, validate_m, write, ret, throw in H.
    destruct (get_prop obj field) as [x|] eqn:Hx;
      [|inversion H; subst; exists []; rewrite app_nil_r;
        split; [reflexivity|split; [constructor|discriminate]]].
    destruct (truthy x); [|exact (IH d log o log' H)].
    destruct (validate (JObj [(field, x)])) as [vo|] eqn:Hv;
      [|inversion H; subst; exists []; rewrite app_nil_r;
        split; [reflexivity|split; [constructor|discriminate]]].
    destruct (get_prop vo field) as [y|] eqn:Hy;
      [|inversion H; subst; exists []; rewrite app_nil_r;
        split; [reflexivity|split; [constructor|discriminate]]].
    destruct (IH _ _ _ _ H) as (evs & -> & Hevs & Hr).
    exists (mkEvent evType (shown y) true :: evs).
    split; [rewrite <- app_assoc; reflexivity|].
    split; [constructor; [split; reflexivity|exact Hevs]|].
    intros r Hor. cbn [map]. rewrite last_cons_default. cbn [ev_data].
    rewrite (Hshown x vo y Hv Hy). exact (Hr r Hor).
  - exact (IH d log o log' H).
Qed.

Lemma stream_loop_all_skip (field evType : string) (shown : jsval -> jsval)
    (validate : jsval -> option jsval) (deltas : list delta) (d : jsval) (log : list event) :
  Forall (fun dl => forall o, dl = DObject o ->
                    exists x, get_prop o field = Some x /\ truthy x = false) deltas ->
  stream_loop field evType shown validate deltas d log = (Ok d, log).
Proof.
  intros Hs. induction Hs as [|[o|t] rest Hd Hs IH].
  - reflexivity.
  - destruct (Hd o eq_refl) as (x & Hx & Ht).
    rewrite (stream_loop_skip _ _ _ _ o x rest d log Hx Ht). exact IH.
  - exact IH.
Qed.

Section HandlerExtras.
Context {F : Formats}.

Lemma parse_single_string_field (f : string) (cs : list check) (x vo : jsval) :
  parse (ZObject [(f, ZString cs)]) (JObj [(f, x)]) = Some vo ->
  exists s, x = JStr s /\ vo = JObj [(f, JStr s)].
Proof.
  cbn. rewrite String.eqb_refl.
  destruct x; try discriminate. destruct (forallb _ _); [|discriminate].
  cbn. repeat rewrite String.eqb_refl. cbn. intros H. inversion H. eauto.
Qed.

Lemma single_string_field_shown (f : string) (cs : list check) (shown : jsval -> jsval) :
  (forall s, shown (JStr s) = JStr s) ->
  forall x vo y, parse (ZObject [(f, ZString cs)]) (JObj [(f, x)]) = Some vo ->
  get_prop vo f = Some y -> shown y = y.
Proof.
  intros Hs x vo y Hp Hy. destruct (parse_single_string_field f cs x vo Hp) as (s & _ & ->).
  rewrite get_prop_single in Hy. inversion Hy. apply Hs.
Qed.

End HandlerExtras.

Section HandlerExtraClaims.
Context {F : Formats}.

(** Every run of a document handler only appends transient events of its
    own delta type to the stream, also when it ends in an error; when it
    returns, the content it returns is the data of the last delta event
    of its loop, or [""] when the loop wrote none. The sheet create
    handler then writes that content once more. *)
Theorem document_handlers_return_last_delta :
  (forall s log o log',
     code_onCreateDocument s log = (o, log') \/ code_onUpdateDocument s log = (o, log') ->
     exists evs, log' = app log evs /\
       Forall (fun e => ev_type e = "data-codeDelta" /\ ev_transient e = true) evs /\
       (forall r, o = Ok r -> r = last (map ev_data evs) (JStr EmptyString))) /\
  (forall s log o log', sheet_onUpdateDocument s log = (o, log') ->
     exists evs, log' = app log evs /\
       Forall (fun e => ev_type e = "data-sheetDelta" /\ ev_transient e = true) evs /\
       (forall r, o = Ok r -> r = last (map ev_data evs) (JStr EmptyString))) /\
  (forall s log r log', sheet_onCreateDocument s log = (Ok r, log') ->
     exists evs, log' = app log (evs ++ [sheetDelta r])%list /\
       Forall (fun e => ev_type e = "data-sheetDelta" /\ ev_transient e = true) evs /\
       r = last (map ev_data evs) (JStr EmptyString)) /\
  (forall s log err log', sheet_onCreateDocument s log = (Throw err, log') ->
     exists evs, log' = app log evs /\
       Forall (fun e => ev_type e = "data-sheetDelta" /\ ev_transient e = true) evs).
Proof.
  assert (Hcode := stream_loop_written "code" "data-codeDelta"
                     (fun c => nullish c (JStr EmptyString)) codeAdapterSchema_validate
                     (single_string_field_shown "code" _ _ (fun s => eq_refl))).
  assert (Hsheet := stream_loop_written "csv" "data-sheetDelta" (fun c => c)
                      (fun data => parse sheetStreamingSchema data)
                      (single_string_field_shown "csv" _ _ (fun s => eq_refl))).
  split; [intros s log o log' [H|H]; exact (Hcode _ _ _ _ _ H)|].
  split; [intros s log o log' H; exact (Hsheet _ _ _ _ _ H)|].
  split.
  - intros s log r log' H. unfold sheet_onCreateDocument, bind in H.
    destruct (stream_loop _ _ _ _ s _ log) as [[d|e] l1] eqn:Hl; [|discriminate].
    destruct (Hsheet _ _ _ _ _ Hl) as (evs & -> & Hevs & Hd).
    unfold write, ret in H. inversion H; subst.
    exists evs. rewrite <- app_assoc. split; [reflexivity|]. split; [exact Hevs|].
    apply Hd. reflexivity.
  - intros s log err log' H. unfold sheet_onCreateDocument, bind in H.
    destruct (stream_loop _ _ _ _ s _ log) as [[d|e] l1] eqn:Hl;
      [unfold write, ret in H; discriminate|].
    inversion H; subst.
    destruct (Hsheet _ _ _ _ _ Hl) as (evs & -> & Hevs & _). eauto.
Qed.

(** A provider stream in which no ["object"] increment carries a truthy
    field (only other delta types, or an absent or empty field) makes the
    code handlers and the sheet update handler write nothing and return
    [""]; the sheet create handler writes one [data-sheetDelta] event
    with [""] and returns [""]. *)
Theorem document_handlers_no_content (cs ss : list delta) (log : list event) :
  Forall (fun dl => forall o, dl = DObject o ->
                    exists x, get_prop o "code" = Some x /\ truthy x = false) cs ->
  Forall (fun dl => forall o, dl = DObject o ->
                    exists x, get_prop o "csv" = Some x /\ truthy x = false) ss ->
  code_onCreateDocument cs log = (Ok (JStr EmptyString), log) /\
  code_onUpdateDocument cs log = (Ok (JStr EmptyString), log) /\
  sheet_onUpdateDocument ss log = (Ok (JStr EmptyString), log) /\
  sheet_onCreateDocument ss log
    = (Ok (JStr EmptyString), app log [sheetDelta (JStr EmptyString)]).
Proof.
  intros Hc Hs.
  split; [apply stream_loop_all_skip; exact Hc|].
  split; [apply stream_loop_all_skip; exact Hc|].
  split; [apply stream_loop_all_skip; exact Hs|].
  unfold sheet_onCreateDocument, bind. rewrite stream_loop_all_skip by exact Hs.
  reflexivity.
Qed.

End HandlerExtraClaims.

Lemma document_handlers_return_last_delta_witness :
  sheet_onCreateDocument (F:=sample_formats)
    [sheet_increment "a"; DOther "finish"; sheet_increment "a,b"] []
  = (Ok (JStr "a,b"), [sheetDelta (JStr "a"); sheetDelta (JStr "a,b");
                       sheetDelta (JStr "a,b")]) /\
  exists evs, [sheetDelta (JStr "a"); sheetDelta (JStr "a,b"); sheetDelta (JStr "a,b")]
              = app [] (evs ++ [sheetDelta (JStr "a,b")])%list /\
    JStr "a,b" = last (map ev_data evs) (JStr EmptyString).
Proof.
  split; [vm_compute; reflexivity|].
  destruct (document_handlers_return_last_delta (F:=sample_formats)) as (_ & _ & H & _).
  destruct (H [sheet_increment "a"; DOther "finish"; sheet_increment "a,b"] [] (JStr "a,b")
              [sheetDelta (JStr "a"); sheetDelta (JStr "a,b"); sheetDelta (JStr "a,b")]
              ltac:(vm_compute; reflexivity)) as (evs & Hl & _ & Hr).
  exists evs. split; assumption.
Defined.

Lemma document_handlers_no_content_witness :
  code_onCreateDocument (F:=sample_formats)
    [DOther "start"; DObject (JObj [("code", JStr EmptyString)]); DObject (JObj [])] []
  = (Ok (JStr EmptyString), []).
Proof.
  refine (proj1 (document_handlers_no_content (F:=sample_formats) _
                   [DObject (JObj [])] [] _ _)).
  - repeat constructor; intros o Ho; inversion Ho; subst; eexists; split; reflexivity.
  - repeat constructor; intros o Ho; inversion Ho; subst; eexists; split; reflexivity.
Defined.

(** ** The tools' inputs and early exits *)

Section ToolExtras.
Context {F : Formats}.

Lemma parse_two_string_fields (a b : string) (ca cb : list check) (ps : list (string * jsval)) :
  a <> b ->
  parse (ZObject [(a, ZString ca); (b, ZString cb)]) (JObj ps)
  = match assoc a ps, assoc b ps with
    | Some (JStr x), Some (JStr y) =>
        if forallb (check_ok x) ca && forallb (check_ok y) cb
        then Some (JObj [(a, JStr x); (b, JStr y)]) else None
    | _, _ => None
    end.
Proof.
  intros Hab. cbn [parse]. unfold has_prop.
  destruct (assoc a ps) as [[]|]; destruct (assoc b ps) as [[]|]; try reflexivity;
    cbn [strict_eqb]; try (destruct (forallb _ _); reflexivity).
  destruct (forallb (check_ok s) ca), (forallb (check_ok s0) cb); reflexivity.
Qed.

Lemma parse_string_enum_fields (a b : string) (ca : list check) (vs : list string)
    (ps : list (string * jsval)) :
  parse (ZObject [(a, ZString ca); (b, ZEnum vs)]) (JObj ps)
  = match assoc a ps, assoc b ps with
    | Some (JStr x), Some (JStr y) =>
        if forallb (check_ok x) ca && existsb (String.eqb y) vs
        then Some (JObj [(a, JStr x); (b, JStr y)]) else None
    | _, _ => None
    end.
Proof.
  cbn [parse]. unfold has_prop.
  destruct (assoc a ps) as [[]|]; destruct (assoc b ps) as [[]|]; try reflexivity;
    cbn [strict_eqb]; try (destruct (forallb _ _); reflexivity).
  destruct (forallb (check_ok s) ca), (existsb (String.eqb s0) vs); reflexivity.
Qed.

Lemma forallb_min1 (s : string) :
  forallb (check_ok s) [CMin (JNum 1)] = true <-> 1 <= String.length s.
Proof.
  simpl. rewrite Bool.andb_true_r, Z.leb_le. lia.
Qed.

Lemma existsb_eqb_In (k : string) (vs : list string) :
  existsb (String.eqb k) vs = true <-> In k vs.
Proof.
  rewrite existsb_exists. split.
  - intros (x & Hx & He). apply String.eqb_eq in He. subst. exact Hx.
  - intros H. exists k. split; [exact H|apply String.eqb_refl].
Qed.

(** What the document tools accept: [createDocument] takes exactly the
    parameter objects whose [title] is a string of at least one
    character and whose [kind] is one of [artifactKinds];
    [updateDocument] takes exactly those whose [id] and [description]
    are strings of at least one character. Validation returns just
    these two fields, dropping every other key. *)
Theorem document_tool_params_accepted (artifactKinds : list string) (params out : jsval) :
  (parse (createDocumentSchemaV4 artifactKinds) params = Some out <->
   exists ps t k, params = JObj ps /\
     assoc "title" ps = Some (JStr t) /\ 1 <= String.length t /\
     assoc "kind" ps = Some (JStr k) /\ In k artifactKinds /\
     out = JObj [("title", JStr t); ("kind", JStr k)]) /\
  (parse updateDocumentSchemaV4 params = Some out <->
   exists ps i d, params = JObj ps /\
     assoc "id" ps = Some (JStr i) /\ 1 <= String.length i /\
     assoc "description" ps = Some (JStr d) /\ 1 <= String.length d /\
     out = JObj [("id", JStr i); ("description", JStr d)]).
Proof.
  split; split.
  - destruct params as [| | | | | |ps|]; try discriminate.
    unfold createDocumentSchemaV4. rewrite parse_string_enum_fields.
    destruct (assoc "title" ps) as [[]|] eqn:E1; try discriminate.
    destruct (assoc "kind" ps) as [[]|] eqn:E2; try discriminate.
    destruct (forallb _ _) eqn:E3; [|discriminate].
    destruct (existsb _ _) eqn:E4; [|discriminate].
    intros H. inversion H; subst.
    apply forallb_min1 in E3. apply existsb_eqb_In in E4. eauto 10.
  - intros (ps & t & k & -> & E1 & E3 & E2 & E4 & ->).
    unfold createDocumentSchemaV4. rewrite parse_string_enum_fields, E1, E2.
    apply forallb_min1 in E3. apply existsb_eqb_In in E4. rewrite E3, E4. reflexivity.
  - destruct params as [| | | | | |ps|]; try discriminate.
    unfold updateDocumentSchemaV4. rewrite parse_two_string_fields by discriminate.
    destruct (assoc "id" ps) as [[]|] eqn:E1; try discriminate.
    destruct (assoc "description" ps) as [[]|] eqn:E2; try discriminate.
    destruct (forallb (check_ok s) _) eqn:E3; [|discriminate].
    destruct (forallb (check_ok s0) _) eqn:E4; [|discriminate].
    intros H. inversion H; subst.
    apply forallb_min1 in E3. apply forallb_min1 in E4. eauto 10.
  - intros (ps & i & d & -> & E1 & E3 & E2 & E4 & ->).
    unfold updateDocumentSchemaV4. rewrite parse_two_string_fields by discriminate.
    rewrite E1, E2.
    apply forallb_min1 in E3. apply forallb_min1 in E4. rewrite E3, E4. reflexivity.
Qed.

(** Both document tools validate their parameters before any side
    effect: parameters the schema rejects make [execute] throw the
    validation error with nothing written to the stream. When the
    parameters are valid but [getDocumentById] finds no document,
    [updateDocument] returns [{error: "Document not found"}], again
    with nothing written and no handler run. *)
Theorem document_tools_exit_before_writing (artifactKinds : list string)
    (registry : list documentHandler) (getDocumentById : jsval -> option docrow)
    (id : string) (params : jsval) (log : list event) :
  (parse (createDocumentSchemaV4 artifactKinds) params = None ->
   createDocument_execute artifactKinds registry id params log = (Throw "ZodError", log)) /\
  (parse updateDocumentSchemaV4 params = None ->
   updateDocument_execute getDocumentById registry params log = (Throw "ZodError", log)) /\
  (forall i d, parse updateDocumentSchemaV4 params
                 = Some (JObj [("id", JStr i); ("description", JStr d)]) ->
   getDocumentById (JStr i) = None ->
   updateDocument_execute getDocumentById registry params log
   = (Ok (JObj [("error", JStr "Document not found")]), log)).
Proof.
  split; [|split].
  - intros H. unfold createDocument_execute, bind, validate_m. rewrite H. reflexivity.
  - intros H. unfold updateDocument_execute, bind, validate_m. rewrite H. reflexivity.
  - intros i d H Hg. unfold updateDocument_execute, bind, validate_m. rewrite H.
    unfold ret, read. cbn. rewrite Hg. reflexivity.
Qed.

End ToolExtras.

Lemma document_tool_params_accepted_witness :
  parse (F:=sample_formats) (createDocumentSchemaV4 ["text"; "code"; "sheet"])
    (JObj [("title", JStr "Fib"); ("kind", JStr "code"); ("extra", JNum 1)])
  = Some (JObj [("title", JStr "Fib"); ("kind", JStr "code")]).
Proof.
  apply (proj2 (proj1 (document_tool_params_accepted (F:=sample_formats)
                         ["text"; "code"; "sheet"]
                         (JObj [("title", JStr "Fib"); ("kind", JStr "code"); ("extra", JNum 1)])
                         (JObj [("title", JStr "Fib"); ("kind", JStr "code")])))).
  exists [("title", JStr "Fib"); ("kind", JStr "code"); ("extra", JNum 1)], "Fib", "code".
  repeat split; simpl; auto; lia.
Defined.

Lemma document_tools_exit_before_writing_witness :
  updateDocument_execute (F:=sample_formats) (fun _ => None) []
    (JObj [("id", JStr "d1"); ("description", JStr "fix")]) []
  = (Ok (JObj [("error", JStr "Document not found")]), []).
Proof.
  apply (proj2 (proj2 (document_tools_exit_before_writing (F:=sample_formats)
                         [] [] (fun _ => None) "x"
                         (JObj [("id", JStr "d1"); ("description", JStr "fix")]) []))
           "d1" "fix"); reflexivity.
Defined.

(** ** The converter's exact output *)

Lemma convert_layout_v3_exact (s : zschema) :
  forall fuel, convert_depth s < fuel ->
  convert_fuel fuel (layout_v3 s) = Ok (v3_warnings s, v3_image s).
Proof.
  induction s as [sh|cs|vs|e IH|os IH|i IH|v|] using zschema_ind';
    intros [|fuel] Hf; try (simpl in Hf; lia).
  - reflexivity.
  - cbn -[convert_checks map]. rewrite convert_checks_layout_v3. reflexivity.
  - cbn -[enum_values map]. rewrite enum_values_layout. reflexivity.
  - simpl in Hf. simpl. rewrite (IH fuel ltac:(lia)). reflexivity.
  - simpl in Hf.
    assert (Hl :
      (fix conv_list (xs : list jsval) : outcome (list string * list zschema) :=
         match xs with
         | [] => Ok ([], [])
         | x :: rest =>
             r <-? convert_fuel fuel x ;; rs <-? conv_list rest ;;
             Ok (fst r ++ fst rs, snd r :: snd rs)%list
         end)
        ((fix go (os : list zschema) : list jsval :=
            match os with [] => [] | x :: r => layout_v3 x :: go r end) os)
      = Ok ((fix go (os : list zschema) : list string :=
               match os with [] => [] | o :: r => (v3_warnings o ++ go r)%list end) os,
            (fix go (os : list zschema) : list zschema :=
               match os with [] => [] | o :: r => v3_image o :: go r end) os)).
    { induction IH as [|o os Ho Hos IHos]; [reflexivity|].
      simpl in Hf. simpl. rewrite (Ho fuel ltac:(lia)). simpl.
      rewrite (IHos ltac:(lia)). reflexivity. }
    simpl. rewrite Hl. reflexivity.
  - simpl in Hf. simpl. rewrite (IH fuel ltac:(lia)). reflexivity.
  - reflexivity.
  - reflexivity.
Qed.

Lemma v3_image_object_free (s : zschema) : object_free s = true -> v3_image s = s.
Proof.
  induction s as [sh|cs|vs|e IH|os IH|i IH|v|] using zschema_ind'; simpl;
    intros H; try discriminate; try reflexivity.
  - rewrite (IH H). reflexivity.
  - f_equal. induction IH as [|o os Ho Hos IHos]; [reflexivity|].
    apply andb_true_iff in H. destruct H as [H1 H2].
    rewrite (Ho H1), (IHos H2). reflexivity.
  - rewrite (IH H). reflexivity.
Qed.

(** For schemas built only from [z.object], [z.string] with [min],
    [max], [email], [uuid] and [url] checks, [z.enum], [z.array],
    [z.union], [z.optional], [z.literal] and [z.any] (the kinds of
    [zschema]), on the pinned library's layout the converter never
    throws: it returns the schema [v3_image] (objects lose their fields,
    the other nodes of these kinds are kept, with their string checks,
    enum values and literal) and emits one "Unknown Zod v4 schema type:
    ZodAny" warning per [z.any()] node outside objects. On such schemas
    without objects the conversion is exact: the result is the original
    schema and accepts the same values. Other kinds ([z.number()], ...)
    and other string checks ([regex], ...) are outside this statement. *)
Theorem createEquivalentV3Schema_classic_output (S : zschema) :
  createEquivalentV3Schema (layout_v3 S) = Ok (v3_warnings S, v3_image S) /\
  (object_free S = true ->
   v3_image S = S /\ forall (F : Formats) v, parse (v3_image S) v = parse S v).
Proof.
  split.
  - apply convert_layout_v3_exact, convert_depth_lt_jsize.
  - intros H. rewrite (v3_image_object_free S H). auto.
Qed.

Lemma createEquivalentV3Schema_classic_output_witness :
  object_free (ZUnion [ZString [CEmail]; ZArray ZAny]) = true /\
  createEquivalentV3Schema (layout_v3 (ZUnion [ZString [CEmail]; ZArray ZAny]))
  = Ok (["Unknown Zod v4 schema type: ZodAny. Using generic schema."],
        ZUnion [ZString [CEmail]; ZArray ZAny]).
Proof.
  split; [reflexivity|].
  destruct (createEquivalentV3Schema_classic_output (ZUnion [ZString [CEmail]; ZArray ZAny]))
    as [H1 H2].
  rewrite H1. destruct (H2 eq_refl) as [H3 _]. rewrite H3. reflexivity.
Defined.

(** ** The compatibility test *)

Lemma str_length_append (a b : string) :
  String.length (a ++ b) = String.length a + String.length b.
Proof. induction a as [|c a IH]; simpl; [reflexivity|]. rewrite IH. reflexivity. Qed.

Lemma str_concat_cons_length (sep x : string) (xs : list string) :
  String.length x <= String.length (String.concat sep (x :: xs)).
Proof.
  destruct xs as [|y ys]; [simpl; lia|].
  change (String.concat sep (x :: y :: ys)) with (x ++ sep ++ String.concat sep (y :: ys)).
  rewrite str_length_append. lia.
Qed.

Lemma json_stringify_object_not_empty (outs : list (string * jsval)) (k s : string) :
  In (k, JStr s) outs -> json_stringify (JObj outs) <> Some "{}".
Proof.
  intros Hin. cbn [json_stringify].
  match goal with
  | |- Some ("{" ++ String.concat "," ?parts ++ "}") <> _ =>
      assert (Hp : exists x xs, parts = x :: xs /\ 1 <= String.length x)
  end.
  { induction outs as [|[k0 x0] outs IH]; [destruct Hin|].
    destruct Hin as [Heq|Hin].
    - inversion Heq; subst. cbn [json_stringify]. eexists _, _. split; [reflexivity|].
      unfold json_quote. simpl. lia.
    - destruct (json_stringify x0) as [t|].
      + eexists _, _. split; [reflexivity|]. unfold json_quote. simpl. lia.
      + exact (IH Hin). }
  destruct Hp as (x & xs & Hp & Hx). rewrite Hp. intros H.
  apply (f_equal (fun o => match o with Some t => String.length t | None => 0 end)) in H.
  cbv beta iota in H. rewrite !str_length_append in H.
  pose proof (str_concat_cons_length "," x xs).
  change (String.length "{") with 1 in H. change (String.length "}") with 1 in H.
  change (String.length "{}") with 2 in H. lia.
Qed.

Section CompatExtras.
Context {F : Formats}.

Lemma createStreamingToolSchema_ok_inv (layout : zschema -> jsval) (S : zschema)
    (w : AISDKCompatibleSchema) :
  createStreamingToolSchema layout S = Ok w ->
  v4Schema w = S /\ forall p, validate w p = parse S p.
Proof.
  unfold createStreamingToolSchema, obind. intros H.
  destruct (convertToV3Schema (layout S)); inversion H; subst; auto.
Qed.

Lemma parse_object_out_string_field (sh : list (string * zschema)) (ps : list (string * jsval))
    (out : jsval) (k : string) (cs : list check) :
  parse (ZObject sh) (JObj ps) = Some out -> In (k, ZString cs) sh ->
  exists outs s, out = JObj outs /\ In (k, JStr s) outs.
Proof.
  revert out. induction sh as [|[k0 sk0] rest IH]; intros out H Hin; [destruct Hin|].
  simpl in H. destruct (parse sk0 _) as [y|] eqn:H0; [|discriminate].
  match type of H with
  | context [match ?g with Some ys => Some (if _ then _ else _) | None => None end] =>
      destruct g as [ys|] eqn:Hg; [|discriminate]
  end.
  injection H as <-.
  destruct Hin as [Heq|Hin].
  - inversion Heq; subst. destruct (parse_string_inv _ _ _ H0) as (s & Hx & _).
    rewrite Hx in H0. cbn in H0. destruct (forallb _ _); inversion H0; subst.
    cbn [strict_eqb negb]. rewrite Bool.orb_true_r.
    eexists _, s. split; [reflexivity|left; reflexivity].
  - destruct (IH (JObj ys)) as (outs & s & Ho & Hs); [simpl; rewrite Hg; reflexivity|exact Hin|].
    inversion Ho; subst.
    match goal with |- context [if ?b then _ else _] => destruct b end;
      eexists _, s; split; try reflexivity; simpl; auto.
Qed.

(** [testStreamingCompatibility] never throws. Test data the v4 schema
    rejects gives [false] with one [console.error] diagnostic. On the
    pinned library's layout, every object schema with a string field
    is reported incompatible even on test data it accepts: the
    converted schema strips every key, so the two JSON texts differ.
    On the [zod] 4 layout the converted schema is [any], and the
    result is whether the v4 parse output and the raw test data have
    the same JSON text. *)
Theorem testStreamingCompatibility_results :
  (forall layout S d, parse S d = None ->
     exists e, testStreamingCompatibility layout S d
               = (["Schema compatibility test failed: " ++ e], false)) /\
  (forall sh k cs d, In (k, ZString cs) sh -> accepts (ZObject sh) d = true ->
     testStreamingCompatibility layout_v3 (ZObject sh) d = ([], false)) /\
  (forall S d r, parse S d = Some r ->
     testStreamingCompatibility layout_v4 S d
     = ([], json_result_eqb (json_stringify r) (json_stringify d))).
Proof.
  split; [|split].
  - intros layout S d H. unfold testStreamingCompatibility.
    destruct (createStreamingToolSchema layout S) as [w|e] eqn:Hw; [|eauto].
    destruct (createStreamingToolSchema_ok_inv layout S w Hw) as [_ Hp].
    rewrite Hp, H. exists "ZodError". reflexivity.
  - intros sh k cs d Hin Hacc. unfold accepts in Hacc.
    destruct (parse (ZObject sh) d) as [out|] eqn:Hp; [|discriminate].
    destruct (parse_object_inv _ _ _ Hp) as [ps ->].
    destruct (parse_object_out_string_field _ _ _ _ _ Hp Hin) as (outs & s & -> & Hs).
    unfold testStreamingCompatibility, createStreamingToolSchema, convertToV3Schema,
      createEquivalentV3Schema.
    rewrite (convert_layout_v3_exact (ZObject sh) _ (convert_depth_lt_jsize _)).
    cbn [obind validate aiSdkSchema snd v3_image]. rewrite Hp. cbn [parse].
    change (json_stringify (JObj [])) with (Some "{}").
    destruct (json_stringify (JObj outs)) as [t|] eqn:Ht; [|reflexivity].
    cbn [json_result_eqb].
    destruct (String.eqb_spec t "{}") as [->|]; [|reflexivity].
    exfalso. exact (json_stringify_object_not_empty outs k s Hs Ht).
  - intros S d r H. unfold testStreamingCompatibility, createStreamingToolSchema,
      convertToV3Schema.
    rewrite createEquivalentV3Schema_layout_v4. cbn [obind validate aiSdkSchema snd].
    rewrite H. reflexivity.
Qed.

End CompatExtras.

Lemma testStreamingCompatibility_results_witness :
  testStreamingCompatibility (F:=sample_formats) layout_v3
    (ZObject [("code", ZString [CMin (JNum 1)])]) (JObj [("code", JStr "x")])
  = ([], false).
Proof.
  apply (proj1 (proj2 (testStreamingCompatibility_results (F:=sample_formats)))
           _ "code" [CMin (JNum 1)]).
  - left. reflexivity.
  - vm_compute. reflexivity.
Defined.

(** ** [requestSuggestions] runs *)

Section RequestSuggestionsProofs.
Context {F : Formats}.
Variable generateUUID : nat -> string.
Variable newDate : nat -> jsval.

Lemma read_obj (ps : list (string * jsval)) (k : string) (log : list event) :
  read (JObj ps) k log = (Ok (prop (JObj ps) k), log).
Proof. reflexivity. Qed.

Lemma suggestions_loop_run (documentId : jsval) (elements : list jsval) :
  Forall (fun e => exists ps, e = JObj ps) elements ->
  forall acc log saved n t,
  suggestions_loop generateUUID documentId elements acc (mkWorld log saved n t)
  = (Ok (app acc (suggestions_for generateUUID n documentId elements)),
     mkWorld (app log (map suggestionEvent (suggestions_for generateUUID n documentId elements)))
             saved (n + length elements) t).
Proof.
  intros He. induction He as [|e elements [ps ->] He IH]; intros acc log saved n t.
  - simpl. rewrite !app_nil_r, Nat.add_0_r. reflexivity.
  - cbn [suggestions_loop]. unfold wbind at 1, lift at 1. rewrite read_obj. cbn beta iota.
    unfold wbind at 1, lift at 1. rewrite read_obj. cbn beta iota.
    unfold wbind at 1, lift at 1. rewrite read_obj. cbn beta iota.
    unfold wbind at 1, fresh_uuid at 1. cbn beta iota.
    unfold wbind at 1, lift at 1, write at 1. cbn [w_log w_saved w_uuids w_clock].
    rewrite IH. cbn [suggestions_for map length].
    rewrite <- !app_assoc, Nat.add_succ_r. reflexivity.
Qed.

Lemma with_user_rows_run (userId : jsval) (dps : list (string * jsval)) (ss : list jsval) :
  forall log saved n t,
  with_user_rows newDate userId (JObj dps) ss (mkWorld log saved n t)
  = (Ok (rows_for newDate t userId (prop (JObj dps) "createdAt") ss),
     mkWorld log saved n (t + length ss)).
Proof.
  induction ss as [|s ss IH]; intros log saved n t.
  - simpl. rewrite Nat.add_0_r. reflexivity.
  - cbn [with_user_rows]. unfold wbind at 1, new_Date. cbn [w_log w_saved w_uuids w_clock].
    unfold wbind at 1, lift at 1. rewrite read_obj. cbn beta iota.
    unfold wbind at 1. rewrite IH. cbn [length]. rewrite Nat.add_succ_r. reflexivity.
Qed.

Lemma suggestions_for_shape (n : nat) (documentId : jsval) (elements : list jsval) :
  length (suggestions_for generateUUID n documentId elements) = length elements /\
  Forall (fun s => get_prop s "documentId" = Some documentId /\
                   get_prop s "isResolved" = Some (JBool false))
         (suggestions_for generateUUID n documentId elements).
Proof.
  revert n. induction elements as [|e elements IH]; intros n; [split; [reflexivity|constructor]|].
  destruct (IH (S n)) as [Hl Hf]. split; [simpl; rewrite Hl; reflexivity|].
  constructor; [split; reflexivity|exact Hf].
Qed.

End RequestSuggestionsProofs.

Lemma read_optional_id (u : jsval) (log : list event) :
  truthy (optional_get u "id") = true -> read u "id" log = (Ok (optional_get u "id"), log).
Proof. destruct u; simpl; try discriminate; reflexivity. Qed.

Section RequestSuggestionsClaims.
Context {F : Formats}.
Variable generateUUID : nat -> string.
Variable newDate : nat -> jsval.

(** [requestSuggestions]: parameters without a non-empty [documentId]
    string make [execute] throw the validation error and change nothing.
    A missing document, or one whose [content] is falsy, gives
    [{error: "Document not found"}] and changes nothing: no event, no
    stored suggestion, no UUID. Otherwise the tool writes one transient
    [data-suggestion] event per streamed element, in order, each
    suggestion carrying the requested [documentId], [isResolved: false]
    and a fresh UUID. It stores exactly these suggestions, in one
    [saveSuggestions] batch stamped with the user's id, only when
    [session.user?.id] is truthy, and stores nothing otherwise. It
    returns the document's id, title and kind. *)
Theorem requestSuggestions_runs (getDocumentById : jsval -> option jsval)
    (elementsFor : jsval -> list jsval) (session params : jsval)
    (log : list event) (saved : list (list jsval)) (n t : nat) :
  (parse requestSuggestionsSchemaV4 params = None ->
   requestSuggestions_execute generateUUID newDate getDocumentById elementsFor session params
     (mkWorld log saved n t)
   = (Throw "ZodError", mkWorld log saved n t)) /\
  (forall i, parse requestSuggestionsSchemaV4 params = Some (JObj [("documentId", JStr i)]) ->
   (getDocumentById (JStr i) = None \/
    exists dps, getDocumentById (JStr i) = Some (JObj dps) /\
                truthy (prop (JObj dps) "content") = false) ->
   requestSuggestions_execute generateUUID newDate getDocumentById elementsFor session params
     (mkWorld log saved n t)
   = (Ok notFound, mkWorld log saved n t)) /\
  (forall i dps sps,
   parse requestSuggestionsSchemaV4 params = Some (JObj [("documentId", JStr i)]) ->
   getDocumentById (JStr i) = Some (JObj dps) ->
   truthy (prop (JObj dps) "content") = true ->
   Forall (fun e => exists ps, e = JObj ps) (elementsFor (prop (JObj dps) "content")) ->
   session = JObj sps ->
   let ss := suggestions_for generateUUID n (JStr i) (elementsFor (prop (JObj dps) "content")) in
   let uid := optional_get (prop session "user") "id" in
   requestSuggestions_execute generateUUID newDate getDocumentById elementsFor session params
     (mkWorld log saved n t)
   = (Ok (JObj [("id", JStr i); ("title", prop (JObj dps) "title");
                ("kind", prop (JObj dps) "kind");
                ("message", JStr "Suggestions have been added to the document")]),
      mkWorld (app log (map suggestionEvent ss))
              (if truthy uid
               then app saved [rows_for newDate t uid (prop (JObj dps) "createdAt") ss]
               else saved)
              (n + length ss)
              (if truthy uid then t + length ss else t)) /\
   Forall (fun s => get_prop s "documentId" = Some (JStr i) /\
                    get_prop s "isResolved" = Some (JBool false)) ss).
Proof.
  split; [|split].
  - intros Hp. unfold requestSuggestions_execute, wbind at 1, lift at 1, validate_m.
    rewrite Hp. reflexivity.
  - intros i Hp Hd. unfold requestSuggestions_execute, wbind at 1, lift at 1, validate_m.
    rewrite Hp. unfold ret. cbn beta iota.
    unfold wbind at 1, lift at 1. cbn. destruct Hd as [-> | (dps & -> & Hc)]; [reflexivity|].
    unfold wbind at 1, lift at 1. rewrite read_obj. cbn beta iota. rewrite Hc. reflexivity.
  - intros i dps sps Hp Hd Hc He -> ss uid.
    destruct (suggestions_for_shape generateUUID n (JStr i)
                (elementsFor (prop (JObj dps) "content"))) as [Hlen Hshape].
    split; [|exact Hshape].
    unfold requestSuggestions_execute, wbind at 1, lift at 1, validate_m.
    rewrite Hp. unfold ret. cbn [w_log w_saved w_uuids w_clock].
    unfold wbind at 1, lift at 1. rewrite read_obj.
    change (prop (JObj [("documentId", JStr i)]) "documentId") with (JStr i).
    cbn [w_log w_saved w_uuids w_clock]. rewrite Hd.
    unfold wbind at 1, lift at 1. rewrite read_obj.
    cbn [w_log w_saved w_uuids w_clock]. rewrite Hc. cbn [negb].
    unfold wbind at 1. rewrite (suggestions_loop_run generateUUID _ _ He).
    unfold wbind at 1, lift at 1. rewrite read_obj. cbn beta iota.
    fold ss. rewrite app_nil_l. rewrite <- Hlen. fold ss.
    change (optional_get (prop (JObj sps) "user") "id") with uid.
    destruct (truthy uid) eqn:Hu.
    + unfold wbind at 1, wbind at 1, lift at 1.
      rewrite (read_optional_id _ _ Hu). cbn beta iota. fold uid.
      unfold wbind at 1. rewrite with_user_rows_run.
      unfold saveSuggestions. cbn [w_log w_saved w_uuids w_clock].
      unfold wbind, lift. rewrite !read_obj. reflexivity.
    + unfold wbind, wret, lift. rewrite !read_obj. reflexivity.
Qed.

End RequestSuggestionsClaims.

Lemma requestSuggestions_runs_witness :
  requestSuggestions_execute (F:=sample_formats) (fun n => "uuid") (fun t => JStr "now")
    (fun _ => None) sample_elements JUndef (JObj [("documentId", JStr "d1")])
    (mkWorld [] [] 0 0)
  = (Ok notFound, mkWorld [] [] 0 0) /\
  (let ss := suggestions_for (fun n => "uuid") 0 (JStr "d1")
               (sample_elements (prop sample_document "content")) in
   let uid := optional_get (prop (JObj [("user", JObj [("id", JStr "me")])]) "user") "id" in
   requestSuggestions_execute (F:=sample_formats) (fun n => "uuid") (fun t => JStr "now")
     (fun _ => Some sample_document) sample_elements
     (JObj [("user", JObj [("id", JStr "me")])]) (JObj [("documentId", JStr "d1")])
     (mkWorld [] [] 0 0)
   = (Ok (JObj [("id", JStr "d1"); ("title", prop sample_document "title");
                ("kind", prop sample_document "kind");
                ("message", JStr "Suggestions have been added to the document")]),
      mkWorld (app [] (map suggestionEvent ss))
              (if truthy uid
               then app [] [rows_for (fun t => JStr "now") 0 uid (prop sample_document "createdAt") ss]
               else [])
              (0 + length ss)
              (if truthy uid then 0 + length ss else 0)) /\
   Forall (fun s => get_prop s "documentId" = Some (JStr "d1") /\
                    get_prop s "isResolved" = Some (JBool false)) ss).
Proof.
  split.
  - apply (proj1 (proj2 (requestSuggestions_runs (F:=sample_formats) (fun n => "uuid")
             (fun t => JStr "now") (fun _ => None) sample_elements JUndef
             (JObj [("documentId", JStr "d1")]) [] [] 0 0)) "d1").
    + vm_compute. reflexivity.
    + left. reflexivity.
  - apply (proj2 (proj2 (requestSuggestions_runs (F:=sample_formats) (fun n => "uuid")
             (fun t => JStr "now") (fun _ => Some sample_document) sample_elements
             (JObj [("user", JObj [("id", JStr "me")])])
             (JObj [("documentId", JStr "d1")]) [] [] 0 0))
             "d1" [("content", JStr "Some text."); ("title", JStr "Notes"); ("kind", JStr "text");
                   ("createdAt", JStr "2025-01-01")]
             [("user", JObj [("id", JStr "me")])]).
    + vm_compute. reflexivity.
    + reflexivity.
    + reflexivity.
    + constructor; [eexists; reflexivity|constructor].
    + reflexivity.
Defined.
